(** * AnnotationExplorer: a shallow embedding of [annotationExplorer.py]

    The development follows the Python class [AnnotationExplorer]
    method by method.  Python [str] values are modelled on the code
    points below 256, which is what Rocq's [ascii] holds; on that range
    the character classes of [str.lower], [str.isdigit] and
    [str.split] are written out exactly.  The filesystem is explicit
    state; Python exceptions are the [Raise] results of an error monad.
    The two library parsers ([ET.parse], [json.load]) are parameters of
    the development: only what the class does with their results is
    embedded. *)

From stdpp Require Import base option list gmap strings.
From Stdlib Require Import Ascii NArith ZArith Lia.

Set Warnings "-register-all,-clear-no-such-hyp".

(** ** Python strings *)

Module Py.

Local Open Scope N_scope.

Fixpoint chars (s : string) : list ascii :=
  match s with
  | EmptyString => []
  | String c s' => c :: chars s'
  end.

Fixpoint str (l : list ascii) : string :=
  match l with
  | [] => EmptyString
  | c :: l' => String c (str l')
  end.

Definition ord (c : ascii) : N := N_of_ascii c.

(** [str.isspace] on one character: U+0009..U+000D, U+001C..U+0020,
    U+0085 and U+00A0. *)
Definition isspace (c : ascii) : bool :=
  let n := ord c in
  ((9 <=? n) && (n <=? 13)) || ((28 <=? n) && (n <=? 32))
  || (n =? 133) || (n =? 160).

(** [str.isdigit] on one character: the decimal digits and the three
    superscript digits U+00B2, U+00B3, U+00B9. *)
Definition isdigit_char (c : ascii) : bool :=
  let n := ord c in
  ((48 <=? n) && (n <=? 57)) || (n =? 178) || (n =? 179) || (n =? 185).


(** [s.isdigit()]: every character is a digit and there is at least
    one. *)
Definition isdigit (s : list ascii) : bool :=
  match s with
  | [] => false
  | _ => forallb isdigit_char s
  end.

(** [str.lower] on one character: A-Z and the upper-case letters of
    U+00C0..U+00DE (all but the multiplication sign U+00D7). *)
Definition lower_char (c : ascii) : ascii :=
  let n := ord c in
  if ((65 <=? n) && (n <=? 90))
     || ((192 <=? n) && (n <=? 222) && negb (n =? 215))
  then ascii_of_N (n + 32) else c.

Definition lower (s : string) : string := str (lower_char <$> chars s).

(** [s.endswith(suffix)]. *)
Definition endswith (s suffix : string) : bool :=
  bool_decide (chars suffix `suffix_of` chars s).

(** [s.endswith((a, b, ...))] with a tuple of suffixes. *)
Definition endswith_any (s : string) (suffixes : list string) : bool :=
  existsb (endswith s) suffixes.

Definition dot : ascii := "."%char.
Definition LF : ascii := "010"%char.
Definition CR : ascii := "013"%char.
Definition slash : ascii := "/"%char.

(** [s.replace('.', '', 1)]: the first full stop is dropped. *)
Fixpoint replace_first_dot (s : list ascii) : list ascii :=
  match s with
  | [] => []
  | c :: s' => if decide (c = dot) then s' else c :: replace_first_dot s'
  end.

Fixpoint lstrip (s : list ascii) : list ascii :=
  match s with
  | [] => []
  | c :: s' => if isspace c then lstrip s' else s
  end.

(** [s.strip()]. *)
Definition strip (s : list ascii) : list ascii :=
  reverse (lstrip (reverse (lstrip s))).

Fixpoint split_go (cur : list ascii) (s : list ascii) : list (list ascii) :=
  match s with
  | [] => match cur with [] => [] | _ => [reverse cur] end
  | c :: s' =>
      if isspace c
      then match cur with
           | [] => split_go [] s'
           | _ => reverse cur :: split_go [] s'
           end
      else split_go (c :: cur) s'
  end.

(** [s.split()]: the maximal runs of characters that are not
    whitespace. *)
Definition split (s : list ascii) : list (list ascii) := split_go [] s.

(** Text mode with universal newlines: [\r\n] and a lone [\r] are read
    as [\n]. *)
Fixpoint universal_newlines (s : list ascii) : list ascii :=
  match s with
  | [] => []
  | c :: s' =>
      if decide (c = CR)
      then match s' with
           | c' :: s'' =>
               if decide (c' = LF) then LF :: universal_newlines s''
               else LF :: universal_newlines s'
           | [] => [LF]
           end
      else c :: universal_newlines s'
  end.

(** Lines of a text, each with its terminating [\n] when it has one. *)
Fixpoint split_lines (s : list ascii) : list (list ascii) :=
  match s with
  | [] => []
  | c :: s' =>
      if decide (c = LF) then [c] :: split_lines s'
      else match split_lines s' with
           | [] => [[c]]
           | l :: ls => (c :: l) :: ls
           end
  end.

(** [file.readlines()] of a file opened with [open(path, 'r')]. *)
Definition readlines (text : string) : list (list ascii) :=
  split_lines (universal_newlines (chars text)).

(** [sub in s] on two strings. *)
Fixpoint contains (s sub : list ascii) : bool :=
  bool_decide (sub `prefix_of` s)
  || match s with
     | [] => false
     | _ :: s' => contains s' sub
     end.

(** [os.path.basename]: what follows the last [/]. *)
Fixpoint basename_go (cur : list ascii) (s : list ascii) : list ascii :=
  match s with
  | [] => reverse cur
  | c :: s' =>
      if decide (c = slash) then basename_go [] s' else basename_go (c :: cur) s'
  end.

Definition basename (path : string) : string := str (basename_go [] (chars path)).

(** [os.path.join(a, b)] for a relative, non-empty [b]. *)
Definition join (a b : string) : string := a +:+ "/" +:+ b.

End Py.

(** ** Exceptions *)

Inductive exn :=
| FileNotFoundError
| FileExistsError
| NotADirectoryError
| IsADirectoryError
| DirectoryNotEmpty      (* [OSError] of [os.rmdir] on a directory with entries *)
| UnicodeDecodeError
| ParseError             (* [xml.etree.ElementTree.ParseError] *)
| JSONDecodeError
| TypeError
| ShutilError.           (* [shutil.Error] *)

Global Instance exn_eq_dec : EqDecision exn.
Proof. solve_decision. Defined.

Inductive result (A : Type) :=
| OK (a : A)
| Raise (e : exn).
Global Arguments OK {A} a.
Global Arguments Raise {A} e.

Definition bind {A B} (m : result A) (k : A → result B) : result B :=
  match m with
  | OK a => k a
  | Raise e => Raise e
  end.

Notation "x <- m ;; k" := (bind m (λ x, k))
  (at level 100, m at next level, right associativity, only parsing).

(** [try: body / except <class>: handler]. *)
Definition try_except {A} (body : result A) (class : exn → bool)
    (handler : result A) : result A :=
  match body with
  | OK a => OK a
  | Raise e => if class e then handler else Raise e
  end.

(** [for x in l: body], the loop stopping at the first exception. *)
Fixpoint for_each {A S} (l : list A) (body : A → S → result S) (s : S)
    : result S :=
  match l with
  | [] => OK s
  | x :: l' => s' <- body x s;; for_each l' body s'
  end.

(** ** Data *)

(** What a file holds: bytes that the text codec of [open(path, 'r')]
    rejects, or the text they decode to. *)
Inductive content :=
| Binary (bytes : string)
| Text (text : string).

(** An element of the tree [ET.parse] builds: the class reads tags and
    children only. *)
Inductive element :=
| Element (tag : string) (children : list element).

Definition tag (e : element) : string := let 'Element t _ := e in t.
Definition children (e : element) : list element := let 'Element _ c := e in c.

(** [root.find(name)]: the first child with that tag. *)
Definition find (name : string) (root : element) : option element :=
  List.find (λ c, bool_decide (tag c = name)) (children root).

(** A value [json.load] returns. *)
Inductive json :=
| JNull
| JBool (b : bool)
| JInt (n : Z)
| JFloat (repr : string)
| JString (s : string)
| JArray (items : list json)
| JObject (members : list (string * json)).

(** [key in data] for a string [key]: key lookup in a dict, element
    equality in a list, substring in a string; the other values are
    not containers and the test raises. *)
Definition py_in (key : string) (data : json) : result bool :=
  match data with
  | JObject members => OK (bool_decide (key ∈ members.*1))
  | JArray items =>
      OK (existsb (λ v, match v with
                        | JString s => bool_decide (s = key)
                        | _ => false
                        end) items)
  | JString s => OK (Py.contains (Py.chars s) (Py.chars key))
  | JNull | JBool _ | JInt _ | JFloat _ => Raise TypeError
  end.

(** The values [in] accepts on its right: the others raise. *)
Definition is_container (data : json) : bool :=
  match data with
  | JObject _ | JArray _ | JString _ => true
  | JNull | JBool _ | JInt _ | JFloat _ => false
  end.

(** ** The filesystem *)

Module Fs.

(** A directory of the scratch area, entries in the order [os.scandir]
    lists them. *)
Inductive dir :=
| Dir (files : list (string * content)) (subdirs : list (string * dir)).

Definition files (d : dir) := let 'Dir fs _ := d in fs.
Definition subdirs (d : dir) := let 'Dir _ ds := d in ds.

Section assoc.
Context {A : Type}.

Fixpoint assoc (n : string) (l : list (string * A)) : option A :=
  match l with
  | [] => None
  | (m, a) :: l' => if decide (m = n) then Some a else assoc n l'
  end.

Fixpoint assoc_remove (n : string) (l : list (string * A))
    : list (string * A) :=
  match l with
  | [] => []
  | (m, a) :: l' => if decide (m = n) then l' else (m, a) :: assoc_remove n l'
  end.

(** Replaces the entry in place, or adds one at the end. *)
Fixpoint assoc_set (n : string) (a : A) (l : list (string * A))
    : list (string * A) :=
  match l with
  | [] => [(n, a)]
  | (m, b) :: l' =>
      if decide (m = n) then (m, a) :: l' else (m, b) :: assoc_set n a l'
  end.
End assoc.

(** The directory a list of components leads to. *)
Fixpoint dir_at (p : list string) (d : dir) : option dir :=
  match p with
  | [] => Some d
  | n :: p' => sub ← assoc n (subdirs d); dir_at p' sub
  end.

(** Runs [f] on the directory at [p] and puts its result back. *)
Fixpoint dir_update (p : list string) (f : dir → result dir) (d : dir)
    : result dir :=
  match p with
  | [] => f d
  | n :: p' =>
      match assoc n (subdirs d) with
      | None => Raise FileNotFoundError
      | Some sub =>
          sub' <- dir_update p' f sub;;
          OK (Dir (files d) (assoc_set n sub' (subdirs d)))
      end
  end.

Definition read_file (p : list string) (name : string) (d : dir)
    : option content :=
  sub ← dir_at p d; assoc name (files sub).

Definition unlink_here (name : string) (d : dir) : result dir :=
  match assoc name (files d) with
  | Some _ => OK (Dir (assoc_remove name (files d)) (subdirs d))
  | None => Raise FileNotFoundError
  end.

Definition rmtree_here (name : string) (d : dir) : result dir :=
  match assoc name (subdirs d) with
  | Some _ => OK (Dir (files d) (assoc_remove name (subdirs d)))
  | None => Raise FileNotFoundError
  end.

Definition write_here (name : string) (data : content) (d : dir) : result dir :=
  match assoc name (subdirs d) with
  | Some _ => Raise IsADirectoryError
  | None => OK (Dir (assoc_set name data (files d)) (subdirs d))
  end.

(** [os.makedirs(p, exist_ok=True)] below [d]. *)
Fixpoint makedirs (p : list string) (d : dir) : result dir :=
  match p with
  | [] => OK d
  | n :: p' =>
      match assoc n (subdirs d) with
      | Some sub =>
          sub' <- makedirs p' sub;;
          OK (Dir (files d) (assoc_set n sub' (subdirs d)))
      | None =>
          match assoc n (files d) with
          | Some _ => Raise NotADirectoryError
          | None =>
              sub' <- makedirs p' (Dir [] []);;
              OK (Dir (files d) (subdirs d ++ [(n, sub')]))
          end
      end
  end.

(** One entry of [os.walk]: the directory, as components below the
    top, then the names of its subdirectories and of its files. *)
Definition walk_entry : Type := list string * list string * list string.

Definition under (n : string) (e : walk_entry) : walk_entry :=
  let '(root, dirs, names) := e in (n :: root, dirs, names).

(** [os.walk(top)]: a directory before its subdirectories. *)
Fixpoint walk (d : dir) : list walk_entry :=
  match d with
  | Dir fs ds =>
      ([], ds.*1, fs.*1)
      :: (fix subs (l : list (string * dir)) : list walk_entry :=
            match l with
            | [] => []
            | (n, sub) :: l' => (under n <$> walk sub) ++ subs l'
            end) ds
  end.

(** [os.walk(top, topdown=False)]: a directory after its
    subdirectories. *)
Fixpoint walk_bottomup (d : dir) : list walk_entry :=
  match d with
  | Dir fs ds =>
      (fix subs (l : list (string * dir)) : list walk_entry :=
         match l with
         | [] => []
         | (n, sub) :: l' => (under n <$> walk_bottomup sub) ++ subs l'
         end) ds
      ++ [([], ds.*1, fs.*1)]
  end.

(** Every name of a directory names one entry, at every depth. *)
Inductive wf : dir → Prop :=
| wf_Dir fs ds :
    NoDup (fs.*1 ++ ds.*1) →
    Forall (λ e, wf e.2) ds →
    wf (Dir fs ds).

(** The scratch area, when there is one, is a well-formed tree. *)
Definition wf_scratch (s : option dir) : Prop :=
  match s with
  | Some d => wf d
  | None => True
  end.

(** A workspace [converted_<name>/]: its three fixed folders, and
    [annotations/] with the subfolders made so far once it exists.
    The folders hold files only. *)
Record workspace := Workspace {
  train_images : gmap string content;
  validation_images : gmap string content;
  cocos : gmap string content;
  annotations : option (gmap string (gmap string content))
}.

(** A member of a zip archive, its name split at the separators. *)
Inductive member :=
| MemberFile (parent : list string) (name : string) (data : content)
| MemberDir (path : list string).

(** The working directory: the archives by path, the scratch area
    [extracted_files/] when it exists, and the workspaces by name. *)
Record filesystem := Filesystem {
  archives : gmap string (list member);
  scratch : option dir;
  workspaces : gmap string workspace
}.

Definition set_scratch (s : option dir) (fs : filesystem) : filesystem :=
  Filesystem (archives fs) s (workspaces fs).

Definition set_workspace (name : string) (w : workspace) (fs : filesystem)
    : filesystem :=
  Filesystem (archives fs) (scratch fs) (<[name := w]> (workspaces fs)).

(** A path below the scratch area: directory components and name. *)
Definition path : Type := list string * string.

(** [open(path)] and reading the bytes. *)
Definition read (p : path) (fs : filesystem) : result content :=
  match scratch fs ≫= read_file p.1 p.2 with
  | Some c => OK c
  | None => Raise FileNotFoundError
  end.

Definition on_scratch (p : list string) (f : dir → result dir)
    (fs : filesystem) : result filesystem :=
  match scratch fs with
  | None => Raise FileNotFoundError
  | Some d => d' <- dir_update p f d;; OK (set_scratch (Some d') fs)
  end.

(** [os.remove(path)]. *)
Definition remove (p : path) : filesystem → result filesystem :=
  on_scratch p.1 (unlink_here p.2).

(** [shutil.rmtree(path)] of a directory of the scratch area. *)
Definition rmtree (p : path) : filesystem → result filesystem :=
  on_scratch p.1 (rmtree_here p.2).

(** [os.rmdir] of the scratch area itself. *)
Definition rmdir_scratch (fs : filesystem) : result filesystem :=
  match scratch fs with
  | None => Raise FileNotFoundError
  | Some (Dir [] []) => OK (set_scratch None fs)
  | Some _ => Raise DirectoryNotEmpty
  end.

End Fs.

Import Fs.

(** ** The class *)

(** The attributes of an [AnnotationExplorer] object. *)
Record AnnotationExplorer := Explorer {
  zip_path : string;
  base_dir : string;
  train_images_dir : string;
  cocos_dir : string;
  extract_dir : string;
  identified_format : option string;
  num_images : nat;
  num_annotations : nat
}.

Definition found_image (self : AnnotationExplorer) : AnnotationExplorer :=
  Explorer (zip_path self) (base_dir self) (train_images_dir self)
    (cocos_dir self) (extract_dir self) (identified_format self)
    (num_images self + 1)%nat (num_annotations self).

Definition found_annotation (format : string) (self : AnnotationExplorer)
    : AnnotationExplorer :=
  Explorer (zip_path self) (base_dir self) (train_images_dir self)
    (cocos_dir self) (extract_dir self) (Some format)
    (num_images self) (num_annotations self + 1)%nat.

(** The text [json.dump(default_coco_structure, f, indent=4)] writes. *)
Definition default_coco_text : string :=
  let q := String "034"%char EmptyString in
  let nl := String Py.LF EmptyString in
  let entry (key value : string) := "    " +:+ q +:+ key +:+ q +:+ ": " +:+ value in
  let sep := "," +:+ nl in
  "{" +:+ nl
  +:+ entry "info" "{}" +:+ sep
  +:+ entry "images" "[]" +:+ sep
  +:+ entry "categories" "[]" +:+ sep
  +:+ entry "licenses" "[]" +:+ sep
  +:+ entry "errors" "[]" +:+ sep
  +:+ entry "annotations" "[]" +:+ sep
  +:+ entry "labels" "[]" +:+ sep
  +:+ entry "classifications" "[]" +:+ sep
  +:+ entry "augmentation_settings" "{}" +:+ sep
  +:+ entry "tile_settings" "{}" +:+ sep
  +:+ entry "False_positive" "{}" +:+ nl
  +:+ "}".

Definition coco_files : list string := ["val_coco.json"; "test_coco.json"].

(** [_create_folder_structure]: every [os.makedirs] has
    [exist_ok=True], so a workspace that is there already is taken as
    it is; the two seed documents are (re)written. *)
Definition _create_folder_structure (zip_path : string) (fs : filesystem)
    : (string * string * string) * filesystem :=
  let dataset_name := Py.basename zip_path in
  let base_dir := "converted_" +:+ dataset_name in
  let w := default (Workspace ∅ ∅ ∅ None) (workspaces fs !! base_dir) in
  let train_images_dir := Py.join base_dir "train_images" in
  let cocos_dir := Py.join base_dir "cocos" in
  let seeded :=
    foldl (λ c coco_file, <[coco_file := Text default_coco_text]> c)
      (cocos w) coco_files in
  let w' := Workspace (train_images w) (validation_images w) seeded
              (annotations w) in
  ((base_dir, train_images_dir, cocos_dir), set_workspace base_dir w' fs).

(** [__init__]. *)
Definition __init__ (zip_path : string) (fs : filesystem)
    : AnnotationExplorer * filesystem :=
  let '((base_dir, train_images_dir, cocos_dir), fs') :=
    _create_folder_structure zip_path fs in
  (Explorer zip_path base_dir train_images_dir cocos_dir "extracted_files"
     None 0 0, fs').

(** Extraction of one member below the scratch area, as
    [ZipFile.extractall] does it: the parent directories are made when
    missing, a file member is written over the file of that name. *)
Definition extract_member (m : member) (d : dir) : result dir :=
  match m with
  | MemberDir p => makedirs p d
  | MemberFile parent name data =>
      d' <- makedirs parent d;;
      dir_update parent (write_here name data) d'
  end.


(** [extract_zip]. *)
Definition extract_zip (self : AnnotationExplorer) (fs : filesystem)
    : result filesystem :=
  let top := default (Dir [] []) (scratch fs) in
  match archives fs !! zip_path self with
  | None => Raise FileNotFoundError
  | Some members =>
      d <- for_each members extract_member top;;
      OK (set_scratch (Some d) fs)
  end.

(** [os.walk(self.extract_dir, ...)]: nothing when the directory is
    not there.  The entries are computed from the tree as it is when
    the loop starts: both loops of the class change a directory only
    after [os.walk] has listed it. *)
Definition os_walk (topdown : bool) (fs : filesystem) : list walk_entry :=
  match scratch fs with
  | None => []
  | Some d => if topdown then walk d else walk_bottomup d
  end.

(** [shutil.move(file_path, os.path.join(images_dir, file))]: a rename
    onto a file path, which replaces a file that is there. *)
Definition move_to_images (self : AnnotationExplorer) (p : path)
    (fs : filesystem) : result filesystem :=
  c <- read p fs;;
  match workspaces fs !! base_dir self with
  | None => Raise FileNotFoundError
  | Some w =>
      fs' <- remove p fs;;
      OK (set_workspace (base_dir self)
            (Workspace (<[p.2 := c]> (train_images w)) (validation_images w)
               (cocos w) (annotations w)) fs')
  end.

(** [_move_file(file_path, os.path.join(annotations_dir, folder))]:
    the folder is made when missing; [shutil.move] into a directory
    refuses a name that exists there. *)
Definition _move_file (self : AnnotationExplorer) (p : path)
    (folder : string) (fs : filesystem) : result filesystem :=
  match workspaces fs !! base_dir self with
  | None => Raise FileNotFoundError
  | Some w =>
      let ann := default ∅ (annotations w) in
      let dest := default ∅ (ann !! folder) in
      match dest !! p.2 with
      | Some _ => Raise ShutilError
      | None =>
          c <- read p fs;;
          fs' <- remove p fs;;
          OK (set_workspace (base_dir self)
                (Workspace (train_images w) (validation_images w) (cocos w)
                   (Some (<[folder := <[p.2 := c]> dest]> ann))) fs')
      end
  end.

(** A workspace once [annotations/] is there. *)
Definition with_annotations (w : workspace) : workspace :=
  Workspace (train_images w) (validation_images w) (cocos w)
    (Some (default ∅ (annotations w))).

(** The three except clauses of the sniffers. *)
Definition is_ParseError (e : exn) : bool := bool_decide (e = ParseError).
Definition is_JSONDecodeError (e : exn) : bool := bool_decide (e = JSONDecodeError).
Definition is_Exception (e : exn) : bool := true.

(** The two parsers of the standard library the class calls. *)
Class Library := {
  (** [ET.parse] on the bytes of a file: [None] is its [ParseError]. *)
  ET_parse : content → option element;
  (** [json.loads] on a text: [None] is its [JSONDecodeError]. *)
  json_loads : string → option json
}.



Section Explorer.

Context {lib : Library}.

(** The body of the [try] of [_is_pascal_voc], once the file is open:
    [true] is its [return True], [false] falls through to the final
    [return False]. *)
Definition pascal_voc_body (c : content) : result bool :=
  match ET_parse c with
  | None => Raise ParseError
  | Some root =>
      if bool_decide (tag root = "annotation")
         && bool_decide (find "object" root ≠ None)
      then OK true else OK false
  end.

(** [_is_pascal_voc]. *)
Definition _is_pascal_voc (file_path : path) (fs : filesystem) : result bool :=
  try_except (c <- read file_path fs;; pascal_voc_body c)
    is_ParseError (OK false).

(** One line of [_is_yolo]: the condition of its [if]. *)
Definition yolo_line (line : list ascii) : bool :=
  let parts := Py.split (Py.strip line) in
  bool_decide (length parts = 5%nat)
  && forallb (λ part, Py.isdigit (Py.replace_first_dot part)) parts.

Definition yolo_body (c : content) : result bool :=
  match c with
  | Binary _ => Raise UnicodeDecodeError
  | Text text => OK (existsb yolo_line (Py.readlines text))
  end.

(** [_is_yolo]. *)
Definition _is_yolo (file_path : path) (fs : filesystem) : result bool :=
  try_except (c <- read file_path fs;; yolo_body c) is_Exception (OK false).

Definition coco_body (c : content) : result bool :=
  match c with
  | Binary _ => Raise UnicodeDecodeError
  | Text text =>
      match json_loads text with
      | None => Raise JSONDecodeError
      | Some data =>
          a <- py_in "annotations" data;;
          if a then
            i <- py_in "images" data;;
            if i then
              c <- py_in "categories" data;;
              if c then OK true else OK false
            else OK false
          else OK false
      end
  end.

(** [_is_coco]. *)
Definition _is_coco (file_path : path) (fs : filesystem) : result bool :=
  try_except (c <- read file_path fs;; coco_body c)
    is_JSONDecodeError (OK false).

Definition state : Type := AnnotationExplorer * filesystem.

(** The body of the inner loop of
    [organize_files_and_identify_format], for the file [file] of the
    directory [root]. *)
Definition classify (root : list string) (file : string) (st : state)
    : result state :=
  let '(self, fs) := st in
  let file_path : path := (root, file) in
  if Py.endswith_any (Py.lower file) [".png"; ".jpg"; ".jpeg"] then
    fs' <- move_to_images self file_path fs;;
    OK (found_image self, fs')
  else if Py.endswith file ".xml" then
    b <- _is_pascal_voc file_path fs;;
    if b then
      fs' <- _move_file self file_path "xml" fs;;
      OK (found_annotation "Pascal VOC" self, fs')
    else OK st
  else if Py.endswith file ".txt" then
    b <- _is_yolo file_path fs;;
    if b then
      fs' <- _move_file self file_path "yolo" fs;;
      OK (found_annotation "YOLO" self, fs')
    else OK st
  else if Py.endswith file ".json" then
    b <- _is_coco file_path fs;;
    if b then
      fs' <- _move_file self file_path "coco" fs;;
      OK (found_annotation "COCO" self, fs')
    else OK st
  else OK st.

(** [os.makedirs(annotations_dir, exist_ok=True)]. *)
Definition make_annotations_dir (self : AnnotationExplorer) (fs : filesystem)
    : result filesystem :=
  match workspaces fs !! base_dir self with
  | None => Raise FileNotFoundError
  | Some w => OK (set_workspace (base_dir self) (with_annotations w) fs)
  end.

(** [organize_files_and_identify_format]. *)
Definition organize_files_and_identify_format (st : state) : result state :=
  let '(self, fs) := st in
  fs1 <- make_annotations_dir self fs;;
  for_each (os_walk true fs1)
    (λ '(root, _, files) st, for_each files (classify root) st)
    (self, fs1).

(** [cleanup]. *)
Definition cleanup (st : state) : result state :=
  let '(self, fs) := st in
  fs1 <- for_each (os_walk false fs)
          (λ '(root, dirs, files) fs,
             fs' <- for_each files (λ file, remove (root, file)) fs;;
             for_each dirs (λ dir, rmtree (root, dir)) fs')
          fs;;
  match scratch fs1 with
  | Some _ => fs2 <- rmdir_scratch fs1;; OK (self, fs2)
  | None => OK (self, fs1)
  end.

(** The dictionary [explore_and_organize] returns. *)
Record summary := Summary {
  dataset_name : string;
  annotation_format : option string;
  summary_num_images : nat;
  num_annotations_files : nat
}.

(** [explore_and_organize]. *)
Definition explore_and_organize (st : state) : result (summary * state) :=
  let '(self, fs) := st in
  fs1 <- extract_zip self fs;;
  st2 <- organize_files_and_identify_format (self, fs1);;
  st3 <- cleanup st2;;
  OK (Summary (Py.basename (zip_path st3.1)) (identified_format st3.1)
        (num_images st3.1) (num_annotations st3.1), st3).

End Explorer.

(** ** The walk, file by file *)

(** A file of the scratch area: directory, name, content. *)
Definition entry : Type := list string * string * content.

Definition below (n : string) (e : entry) : entry :=
  let '(root, file, c) := e in (n :: root, file, c).

(** The files of a tree in the order [os.walk] reaches them. *)
Fixpoint listing (d : dir) : list entry :=
  match d with
  | Dir fs ds =>
      ((λ f, ([], f.1, f.2)) <$> fs)
      ++ (fix subs (l : list (string * dir)) : list entry :=
            match l with
            | [] => []
            | (n, sub) :: l' => (below n <$> listing sub) ++ subs l'
            end) ds
  end.

(** The tree without the file [name] of the directory [p]. *)
Fixpoint remove_file (p : list string) (name : string) (d : dir) : dir :=
  match p with
  | [] => Dir (assoc_remove name (files d)) (subdirs d)
  | n :: p' =>
      match assoc n (subdirs d) with
      | Some sub =>
          Dir (files d) (assoc_set n (remove_file p' name sub) (subdirs d))
      | None => d
      end
  end.

(** The tree with the files that satisfy [keep], at every depth. *)
Fixpoint residual (keep : string → content → bool) (d : dir) : dir :=
  match d with
  | Dir fs ds =>
      Dir (filter (λ f, keep f.1 f.2) fs)
        ((fix subs (l : list (string * dir)) : list (string * dir) :=
            match l with
            | [] => []
            | (n, sub) :: l' => (n, residual keep sub) :: subs l'
            end) ds)
  end.

(** Where the classifier sends a file. *)
Inductive route :=
| Image
| Annotation (folder format : string)
| Unclassified.

Global Instance route_eq_dec : EqDecision route.
Proof. solve_decision. Defined.

Definition moved (r : route) : bool :=
  match r with
  | Unclassified => false
  | _ => true
  end.

Definition to_images (r : route) : bool :=
  match r with
  | Image => true
  | _ => false
  end.

Definition to_annotations (r : route) : bool :=
  match r with
  | Annotation _ _ => true
  | _ => false
  end.

(** What the class keeps besides the scratch area: the object and the
    workspaces. *)
Definition outer : Type := AnnotationExplorer * gmap string workspace.

(** The file [name] of the folder [annotations/<folder>] of the
    workspace of the object. *)
Definition annotation_file (W : outer) (folder name : string) : option content :=
  w ← W.2 !! base_dir W.1;
  ann ← annotations w;
  dest ← ann !! folder;
  dest !! name.

(** The files of the folder [annotations/<folder>] of the workspace
    of the object: none when the folder is not there. *)
Definition annotation_folder (W : outer) (folder : string)
    : gmap string content :=
  default ∅ (w ← W.2 !! base_dir W.1; ann ← annotations w; ann !! folder).

(** The route leads to the folder [annotations/<folder>]. *)
Definition goes_to (folder : string) (r : route) : bool :=
  match r with
  | Annotation f _ => bool_decide (f = folder)
  | _ => false
  end.

(** The file [name] of the images folder of the workspace of the
    object. *)
Definition image_file (W : outer) (name : string) : option content :=
  w ← W.2 !! base_dir W.1; train_images w !! name.

(** The effect of a route on the object and on the workspaces. *)
Definition deliver (r : route) (file : string) (c : content) (W : outer)
    : result outer :=
  match r with
  | Unclassified => OK W
  | Image =>
      match W.2 !! base_dir W.1 with
      | None => Raise FileNotFoundError
      | Some w =>
          OK (found_image W.1,
              <[base_dir W.1 :=
                  Workspace (<[file := c]> (train_images w))
                    (validation_images w) (cocos w) (annotations w)]> W.2)
      end
  | Annotation folder format =>
      match W.2 !! base_dir W.1 with
      | None => Raise FileNotFoundError
      | Some w =>
          let ann := default ∅ (annotations w) in
          let dest := default ∅ (ann !! folder) in
          match dest !! file with
          | Some _ => Raise ShutilError
          | None =>
              OK (found_annotation format W.1,
                  <[base_dir W.1 :=
                      Workspace (train_images w) (validation_images w)
                        (cocos w)
                        (Some (<[folder := <[file := c]> dest]> ann))]> W.2)
          end
      end
  end.

(** The state of the class from its parts. *)
Definition with_scratch (a : gmap string (list member)) (S : outer * dir)
    : AnnotationExplorer * filesystem :=
  (S.1.1, Filesystem a (Some S.2) S.1.2).

(** The two loops of [cleanup] on the tree of the scratch area. *)
Definition sweep (es : list walk_entry) (d : dir) : result dir :=
  for_each es
    (λ '(root, dirs, names) d,
       d' <- for_each names (λ file, dir_update root (unlink_here file)) d;;
       for_each dirs (λ sub, dir_update root (rmtree_here sub)) d')
    d.

Definition image_extensions : list string := [".png"; ".jpg"; ".jpeg"].

(** The test of the first branch of [classify]. *)
Definition is_image (file : string) : bool :=
  Py.endswith_any (Py.lower file) image_extensions.

(** The name ends in [ext], letter case aside. *)
Definition ends_with_nocase (file ext : string) : Prop :=
  ∃ stem tail,
    Py.chars file = stem ++ tail ∧ Py.lower_char <$> tail = Py.chars ext.

(** The name has one of the image extensions, in any letter case. *)
Definition has_image_extension (file : string) : Prop :=
  ∃ ext, ext ∈ image_extensions ∧ ends_with_nocase file ext.

Definition image_entries (l : list entry) : list entry :=
  filter (λ e, is_image e.1.2) l.

(** The images folder after the moves of a list of files, in order. *)
Definition moved_images (l : list entry) (m : gmap string content)
    : gmap string content :=
  foldl (λ m e, <[e.1.2 := e.2]> m) m l.

Section Routes.

Context {lib : Library}.

(** The branch [classify] takes on a file with this name and content. *)
Definition sniff (file : string) (c : content) : result route :=
  if Py.endswith_any (Py.lower file) image_extensions then OK Image
  else if Py.endswith file ".xml" then
    b <- try_except (pascal_voc_body c) is_ParseError (OK false);;
    OK (if b then Annotation "xml" "Pascal VOC" else Unclassified)
  else if Py.endswith file ".txt" then
    b <- try_except (yolo_body c) is_Exception (OK false);;
    OK (if b then Annotation "yolo" "YOLO" else Unclassified)
  else if Py.endswith file ".json" then
    b <- try_except (coco_body c) is_JSONDecodeError (OK false);;
    OK (if b then Annotation "coco" "COCO" else Unclassified)
  else OK Unclassified.

Definition visit (e : entry) (W : outer) : result outer :=
  r <- sniff e.1.2 e.2;; deliver r e.1.2 e.2 W.

(** What [classify] does with a name that is not in its directory:
    only [_is_yolo] catches the [FileNotFoundError]. *)
Definition missing (file : string) (W : outer) : result outer :=
  if Py.endswith_any (Py.lower file) image_extensions then Raise FileNotFoundError
  else if Py.endswith file ".xml" then Raise FileNotFoundError
  else if Py.endswith file ".txt" then OK W
  else if Py.endswith file ".json" then Raise FileNotFoundError
  else OK W.

(** [classify] on the tree of the scratch area alone. *)
Definition visit_at (root : list string) (file : string) (S : outer * dir)
    : result (outer * dir) :=
  match read_file root file S.2 with
  | Some c =>
      r <- sniff file c;;
      W' <- deliver r file c S.1;;
      OK (W', if moved r then remove_file root file S.2 else S.2)
  | None => W' <- missing file S.1;; OK (W', S.2)
  end.

Definition visit_all (es : list walk_entry) (S : outer * dir)
    : result (outer * dir) :=
  for_each es (λ '(root, _, names) S, for_each names (visit_at root) S) S.

(** The files the walk leaves in the scratch area. *)
Definition stays (file : string) (c : content) : bool :=
  match sniff file c with
  | OK r => negb (moved r)
  | Raise _ => true
  end.

(** The routes of the files of a listing that the classifier moves. *)
Definition route_or_unclassified (e : entry) : route :=
  match sniff e.1.2 e.2 with
  | OK r => r
  | Raise _ => Unclassified
  end.

(** Where a file is after the walk, by its route. *)
Definition delivered (W : outer) (e : entry) : Prop :=
  match route_or_unclassified e with
  | Image => is_Some (image_file W e.1.2)
  | Annotation folder _ => annotation_file W folder e.1.2 = Some e.2
  | Unclassified => True
  end.


(** The files of a listing that go to [annotations/<folder>]. *)
Definition routed_to (folder : string) (l : list entry) : list entry :=
  filter (λ e, goes_to folder (route_or_unclassified e)) l.


(** The format literal a file makes [classify] record, if any. *)
Definition format_of (e : entry) : option string :=
  match route_or_unclassified e with
  | Annotation _ format => Some format
  | _ => None
  end.

End Routes.


(** ** A sample archive *)

Module Sample.

Definition voc_text : string := "<annotation><object/></annotation>".

Definition coco_text : string :=
  let q := String "034"%char EmptyString in
  "{" +:+ q +:+ "images" +:+ q +:+ ": [], "
      +:+ q +:+ "annotations" +:+ q +:+ ": [], "
      +:+ q +:+ "categories" +:+ q +:+ ": []}".

(** The parsers on the documents of the sample: what [ET.parse] and
    [json.loads] return on these texts. *)
Definition library : Library := {|
  ET_parse c :=
    match c with
    | Text "<annotation><object/></annotation>" =>
        Some (Element "annotation" [Element "object" []])
    | Text "<annotation><size/></annotation>" =>
        Some (Element "annotation" [Element "size" []])
    | Text "<html><object/></html>" =>
        Some (Element "html" [Element "object" []])
    | _ => None
    end;
  json_loads s :=
    if decide (s = coco_text) then
      Some (JObject [("images", JArray []); ("annotations", JArray []);
                     ("categories", JArray [])])
    else if decide (s = "5") then Some (JInt 5)
    else if decide (s = "null") then Some JNull
    else if decide (s = "{}") then Some (JObject [])
    else None
|}.



Definition members : list member :=
  [MemberFile [] "img1.jpg" (Binary "a");
   MemberFile [] "img2.PNG" (Binary "b");
   MemberFile [] "ann1.xml" (Text voc_text);
   MemberFile [] "notes.txt" (Text "see the readme");
   MemberFile ["labels"] "img1.txt" (Text "0 0.5 0.5 0.25 0.25");
   MemberFile ["nested"; "deeper"] "img1.jpg" (Binary "c");
   MemberDir ["empty"]].

Definition zip_path : string := "Example Datasets/sample.zip".

Definition disk : filesystem := Filesystem {[ zip_path := members ]} None ∅.

(** The object and the disk once the archive is extracted. *)
Definition extracted : AnnotationExplorer * filesystem :=
  let '(self, fs) := __init__ zip_path disk in
  match extract_zip self fs with
  | OK fs' => (self, fs')
  | Raise _ => (self, fs)
  end.

(** The scratch area after the extraction. *)
Definition tree : dir :=
  Dir [("img1.jpg", Binary "a"); ("img2.PNG", Binary "b");
       ("ann1.xml", Text voc_text); ("notes.txt", Text "see the readme")]
    [("labels", Dir [("img1.txt", Text "0 0.5 0.5 0.25 0.25")] []);
     ("nested", Dir [] [("deeper", Dir [("img1.jpg", Binary "c")] [])]);
     ("empty", Dir [] [])].

(** The workspace [__init__] makes. *)
Definition fresh_workspace : workspace :=
  Workspace ∅ ∅
    (<["test_coco.json" := Text default_coco_text]>
       (<["val_coco.json" := Text default_coco_text]> ∅))
    None.

(** The object and the disk after the walk. *)
Definition organized : AnnotationExplorer * filesystem :=
  match organize_files_and_identify_format (lib := library) extracted with
  | OK st => st
  | Raise _ => extracted
  end.

(** The summary, the object and the disk after a run. *)
Definition explored : summary * (AnnotationExplorer * filesystem) :=
  match explore_and_organize (lib := library) (__init__ zip_path disk) with
  | OK r => r
  | Raise _ => (Summary "" None 0 0, __init__ zip_path disk)
  end.

(** A scratch area with two label files of one name. *)
Definition clash_tree : dir :=
  Dir [("a.txt", Text "0 0 0 0 0")]
    [("sub", Dir [("a.txt", Text "1 1 1 1 1")] [])].

Definition clash : AnnotationExplorer * filesystem :=
  let '(self, fs) := __init__ "one.zip" (Filesystem ∅ None ∅) in
  (self, set_scratch (Some clash_tree) fs).

(** A scratch area with one file. *)
Definition one_file (name : string) (c : content) : AnnotationExplorer * filesystem :=
  let '(self, fs) := __init__ "one.zip" (Filesystem ∅ None ∅) in
  (self, set_scratch (Some (Dir [(name, c)] [])) fs).

End Sample.

(** * Properties *)

Lemma chars_str l : Py.chars (Py.str l) = l.
Proof. induction l; simpl; congruence. Qed.

Lemma chars_lower s : Py.chars (Py.lower s) = Py.lower_char <$> Py.chars s.
Proof. apply chars_str. Qed.

Lemma endswith_true s suffix :
  Py.endswith s suffix = true ↔ ∃ stem, Py.chars s = stem ++ Py.chars suffix.
Proof. unfold Py.endswith. rewrite bool_decide_eq_true. reflexivity. Qed.

Lemma endswith_last s suffix c x :
  Py.chars suffix = x ++ [c] →
  Py.endswith s suffix = true → last (Py.chars s) = Some c.
Proof.
  intros Hs [stem H]%endswith_true. rewrite H, Hs, app_assoc.
  apply last_snoc.
Qed.

Lemma lower_last s c :
  last (Py.chars s) = Some c → last (Py.chars (Py.lower s)) = Some (Py.lower_char c).
Proof.
  intros H. rewrite chars_lower, fmap_last, H. reflexivity.
Qed.

Lemma image_last file :
  Py.endswith_any file image_extensions = true →
  last (Py.chars file) = Some "g"%char.
Proof.
  unfold Py.endswith_any, image_extensions. cbn [existsb].
  rewrite !orb_true_iff.
  intros [H|[H|[H|H]]]; [| | |discriminate H].
  - exact (endswith_last _ ".png" "g"%char (Py.chars ".pn") eq_refl H).
  - exact (endswith_last _ ".jpg" "g"%char (Py.chars ".jp") eq_refl H).
  - exact (endswith_last _ ".jpeg" "g"%char (Py.chars ".jpe") eq_refl H).
Qed.

Lemma annotation_extension_not_image file ext c x :
  Py.chars ext = x ++ [c] → Py.lower_char c ≠ "g"%char →
  Py.endswith file ext = true →
  Py.endswith_any (Py.lower file) image_extensions = false.
Proof.
  intros Hext Hne Hend.
  destruct (Py.endswith_any (Py.lower file) image_extensions) eqn:E; [|reflexivity].
  apply image_last in E.
  pose proof (lower_last _ _ (endswith_last _ _ _ _ Hext Hend)) as H.
  congruence.
Qed.

Lemma xml_not_image file :
  Py.endswith file ".xml" = true →
  Py.endswith_any (Py.lower file) image_extensions = false.
Proof.
  apply (annotation_extension_not_image _ _ "l"%char (Py.chars ".xm")); [reflexivity|].
  vm_compute. discriminate.
Qed.

(** ** Association lists *)

Section assoc_facts.
Context {A : Type}.
Implicit Types (l : list (string * A)) (n : string).

Lemma assoc_set_same n a l : assoc n (assoc_set n a l) = Some a.
Proof.
  induction l as [|[m b] l IH]; simpl.
  - by rewrite decide_True.
  - destruct (decide (m = n)) as [->|Hne]; simpl.
    + by rewrite decide_True.
    + by rewrite decide_False.
Qed.

Lemma assoc_set_set n a b l : assoc_set n b (assoc_set n a l) = assoc_set n b l.
Proof.
  induction l as [|[m c] l IH]; simpl.
  - by rewrite decide_True.
  - destruct (decide (m = n)) as [->|Hne]; simpl.
    + by rewrite decide_True.
    + rewrite decide_False by done. by rewrite IH.
Qed.

Lemma assoc_app_fresh n l1 l2 : n ∉ l1.*1 → assoc n (l1 ++ l2) = assoc n l2.
Proof.
  induction l1 as [|[m b] l1 IH]; simpl; [done|].
  intros H. apply not_elem_of_cons in H as [H1 H2].
  rewrite decide_False by done. auto.
Qed.

Lemma assoc_set_app_fresh n a l1 l2 :
  n ∉ l1.*1 → assoc_set n a (l1 ++ l2) = l1 ++ assoc_set n a l2.
Proof.
  induction l1 as [|[m b] l1 IH]; simpl; [done|].
  intros H. apply not_elem_of_cons in H as [H1 H2].
  rewrite decide_False by done. by rewrite IH.
Qed.

Lemma assoc_remove_app_fresh n l1 l2 :
  n ∉ l1.*1 → assoc_remove n (l1 ++ l2) = l1 ++ assoc_remove n l2.
Proof.
  induction l1 as [|[m b] l1 IH]; simpl; [done|].
  intros H. apply not_elem_of_cons in H as [H1 H2].
  rewrite decide_False by done. by rewrite IH.
Qed.

Lemma assoc_Some_elem n a l : assoc n l = Some a → (n, a) ∈ l.
Proof.
  induction l as [|[m b] l IH]; simpl; [done|].
  destruct (decide (m = n)) as [->|Hne].
  - intros [= ->]. left.
  - intros H. right. auto.
Qed.

End assoc_facts.

(** ** Paths in the tree *)

Lemma unlink_removes p name d c :
  read_file p name d = Some c →
  dir_update p (unlink_here name) d = OK (remove_file p name d).
Proof.
  revert d. induction p as [|n p IH]; intros d; unfold read_file; simpl.
  - intros H. unfold unlink_here. by rewrite H.
  - destruct (assoc n (subdirs d)) as [sub|] eqn:E; simpl; [|done].
    intros H. unfold read_file in IH. rewrite (IH sub H). done.
Qed.

Lemma read_missing p name d :
  read_file p name d = None →
  ∀ a ws, read (p, name) (Filesystem a (Some d) ws) = Raise FileNotFoundError.
Proof. intros H a ws. unfold read. simpl. by rewrite H. Qed.

Lemma read_present p name d c :
  read_file p name d = Some c →
  ∀ a ws, read (p, name) (Filesystem a (Some d) ws) = OK c.
Proof. intros H a ws. unfold read. simpl. by rewrite H. Qed.

Lemma remove_present p name d c :
  read_file p name d = Some c →
  ∀ a ws, remove (p, name) (Filesystem a (Some d) ws)
          = OK (Filesystem a (Some (remove_file p name d)) ws).
Proof.
  intros H a ws. unfold remove, on_scratch. simpl.
  by rewrite (unlink_removes _ _ _ _ H).
Qed.

Section walk_facts.
Context {lib : Library}.


(** One step of the loop reads the file it names and nothing else. *)
Lemma classify_visit_at root file self a d ws :
  classify root file (self, Filesystem a (Some d) ws)
  = (S' <- visit_at root file ((self, ws), d);; OK (with_scratch a S')).
Proof.
  unfold classify, visit_at, sniff, missing.
  cbn [fst snd].
  destruct (read_file root file d) as [c|] eqn:Hr.
  - pose proof (read_present _ _ _ _ Hr a ws) as Hread.
    pose proof (remove_present _ _ _ _ Hr a ws) as Hrem.
    fold image_extensions.
    destruct (Py.endswith_any (Py.lower file) image_extensions).
    { unfold move_to_images. rewrite Hread. simpl.
      destruct (ws !! base_dir self) as [w|]; simpl; [|done].
      rewrite Hrem. done. }
    destruct (Py.endswith file ".xml").
    { unfold _is_pascal_voc. rewrite Hread. cbn [bind].
      destruct (try_except (pascal_voc_body c) is_ParseError (OK false))
        as [[]|e]; simpl; try done.
      unfold _move_file. simpl.
      destruct (ws !! base_dir self) as [w|]; simpl; [|done].
      destruct (default ∅ (default ∅ (annotations w) !! "xml") !! file); simpl; [done|].
      rewrite Hread. simpl. rewrite Hrem. done. }
    destruct (Py.endswith file ".txt").
    { unfold _is_yolo. rewrite Hread. cbn [bind].
      destruct (try_except (yolo_body c) is_Exception (OK false))
        as [[]|e]; simpl; try done.
      unfold _move_file. simpl.
      destruct (ws !! base_dir self) as [w|]; simpl; [|done].
      destruct (default ∅ (default ∅ (annotations w) !! "yolo") !! file); simpl; [done|].
      rewrite Hread. simpl. rewrite Hrem. done. }
    destruct (Py.endswith file ".json").
    { unfold _is_coco. rewrite Hread. cbn [bind].
      destruct (try_except (coco_body c) is_JSONDecodeError (OK false))
        as [[]|e]; simpl; try done.
      unfold _move_file. simpl.
      destruct (ws !! base_dir self) as [w|]; simpl; [|done].
      destruct (default ∅ (default ∅ (annotations w) !! "coco") !! file); simpl; [done|].
      rewrite Hread. simpl. rewrite Hrem. done. }
    done.
  - pose proof (read_missing _ _ _ Hr a ws) as Hread.
    fold image_extensions.
    destruct (Py.endswith_any (Py.lower file) image_extensions).
    { unfold move_to_images. rewrite Hread. done. }
    destruct (Py.endswith file ".xml").
    { unfold _is_pascal_voc. rewrite Hread. done. }
    destruct (Py.endswith file ".txt").
    { unfold _is_yolo. rewrite Hread. done. }
    destruct (Py.endswith file ".json").
    { unfold _is_coco. rewrite Hread. done. }
    done.
Qed.

End walk_facts.

(** ** The error monad and its loops *)

Lemma bind_assoc {A B C} (m : result A) (f : A → result B) (g : B → result C) :
  bind (bind m f) g = bind m (λ a, bind (f a) g).
Proof. by destruct m. Qed.

Lemma bind_OK_r {A} (m : result A) : bind m OK = m.
Proof. by destruct m. Qed.

Lemma bind_ext {A B} (m : result A) (f g : A → result B) :
  (∀ a, f a = g a) → bind m f = bind m g.
Proof. intros H. destruct m; simpl; auto. Qed.

Lemma for_each_app {A S} (l1 l2 : list A) (body : A → S → result S) s :
  for_each (l1 ++ l2) body s = bind (for_each l1 body s) (for_each l2 body).
Proof.
  revert s. induction l1 as [|x l1 IH]; intros s; simpl; [done|].
  rewrite bind_assoc. apply bind_ext. auto.
Qed.

Lemma for_each_fmap {A B S} (f : A → B) (l : list A) (body : B → S → result S) s :
  for_each (f <$> l) body s = for_each l (λ a, body (f a)) s.
Proof.
  revert s. induction l as [|x l IH]; intros s; simpl; [done|].
  apply bind_ext. auto.
Qed.

Lemma for_each_ext {A S} (l : list A) (body1 body2 : A → S → result S) s :
  (∀ a s, body1 a s = body2 a s) → for_each l body1 s = for_each l body2 s.
Proof.
  intros H. revert s. induction l as [|x l IH]; intros s; simpl; [done|].
  rewrite H. apply bind_ext. auto.
Qed.

(** ** Induction on trees *)

Lemma dir_ind' (P : dir → Prop) :
  (∀ fs ds, Forall (λ e, P e.2) ds → P (Dir fs ds)) → ∀ d, P d.
Proof.
  intros H. fix IH 1. intros [fs ds]. apply H.
  induction ds as [|[n sub] ds IHds]; constructor; [apply IH|apply IHds].
Qed.

Lemma walk_Dir fs ds :
  walk (Dir fs ds) = ([], ds.*1, fs.*1) :: (ds ≫= λ e, under e.1 <$> walk e.2).
Proof.
  simpl. f_equal. induction ds as [|[n sub] ds IH]; simpl; [done|].
  by rewrite IH.
Qed.

Lemma walk_bottomup_Dir fs ds :
  walk_bottomup (Dir fs ds)
  = (ds ≫= λ e, under e.1 <$> walk_bottomup e.2) ++ [([], ds.*1, fs.*1)].
Proof.
  simpl. f_equal. induction ds as [|[n sub] ds IH]; simpl; [done|].
  by rewrite IH.
Qed.

Lemma listing_Dir fs ds :
  listing (Dir fs ds)
  = ((λ f, ([], f.1, f.2)) <$> fs) ++ (ds ≫= λ e, below e.1 <$> listing e.2).
Proof.
  simpl. f_equal. induction ds as [|[n sub] ds IH]; simpl; [done|].
  by rewrite IH.
Qed.

Lemma residual_Dir keep fs ds :
  residual keep (Dir fs ds)
  = Dir (filter (λ f, keep f.1 f.2) fs) ((λ e, (e.1, residual keep e.2)) <$> ds).
Proof.
  simpl. f_equal. induction ds as [|[n sub] ds IH]; simpl; [done|].
  by rewrite IH.
Qed.

Lemma wf_inv fs ds :
  wf (Dir fs ds) → NoDup fs.*1 ∧ NoDup ds.*1 ∧ Forall (λ e, wf e.2) ds.
Proof.
  inversion 1 as [? ? Hnd Hall]; subst.
  apply NoDup_app in Hnd as (? & ? & ?). auto.
Qed.

Lemma assoc_set_id {A} n (a : A) l : assoc n l = Some a → assoc_set n a l = l.
Proof.
  induction l as [|[m b] l IH]; simpl; [done|].
  destruct (decide (m = n)) as [->|Hne].
  - by intros [= ->].
  - intros H. by rewrite IH.
Qed.

Section walk_loops.
Context {lib : Library}.


Lemma classify_loop a root names S :
  for_each names (classify root) (with_scratch a S)
  = (S' <- for_each names (visit_at root) S;; OK (with_scratch a S')).
Proof.
  revert S. induction names as [|file names IH]; intros [[self ws] d];
    cbn [for_each bind]; [done|].
  change (with_scratch a (self, ws, d)) with (self, Filesystem a (Some d) ws).
  rewrite classify_visit_at.
  rewrite !bind_assoc. apply bind_ext. intros S'. cbn [bind]. apply IH.
Qed.

Lemma organize_loop a es S :
  for_each es (λ '(root, _, names) st, for_each names (classify root) st)
    (with_scratch a S)
  = (S' <- visit_all es S;; OK (with_scratch a S')).
Proof.
  unfold visit_all.
  revert S. induction es as [|[[root dirs] names] es IH]; intros S;
    cbn [for_each bind]; [done|].
  rewrite classify_loop, !bind_assoc. apply bind_ext. intros S'. cbn [bind]. apply IH.
Qed.

(** A step below the subdirectory [n] is a step in that subdirectory. *)
Lemma visit_at_zoom n root file W d sub :
  assoc n (subdirs d) = Some sub →
  visit_at (n :: root) file (W, d)
  = (S' <- visit_at root file (W, sub);;
     OK (S'.1, Dir (files d) (assoc_set n S'.2 (subdirs d)))).
Proof.
  intros Hn. unfold visit_at, read_file. simpl. rewrite Hn. simpl.
  assert (Hid : Dir (files d) (assoc_set n sub (subdirs d)) = d).
  { rewrite (assoc_set_id _ _ _ Hn). by destruct d. }
  fold (read_file root file sub).
  destruct (read_file root file sub) as [c|]; simpl.
  - destruct (sniff file c) as [r|e]; simpl; [|done].
    destruct (deliver r file c W) as [W'|e]; simpl; [|done].
    destruct (moved r); simpl; [done|]. by rewrite Hid.
  - destruct (missing file W); simpl; [|done]. by rewrite Hid.
Qed.

Lemma visit_names_zoom n root names W d sub :
  assoc n (subdirs d) = Some sub →
  for_each names (visit_at (n :: root)) (W, d)
  = (S' <- for_each names (visit_at root) (W, sub);;
     OK (S'.1, Dir (files d) (assoc_set n S'.2 (subdirs d)))).
Proof.
  revert W d sub. induction names as [|file names IH]; intros W d sub Hn; simpl.
  - rewrite (assoc_set_id _ _ _ Hn). by destruct d.
  - rewrite (visit_at_zoom _ _ _ _ _ _ Hn), !bind_assoc.
    apply bind_ext. intros [W' sub']. simpl.
    rewrite (IH W' _ sub'); simpl; [|apply assoc_set_same].
    apply bind_ext. intros [W'' sub'']. simpl. by rewrite assoc_set_set.
Qed.

Lemma visit_all_zoom n es W d sub :
  assoc n (subdirs d) = Some sub →
  visit_all (under n <$> es) (W, d)
  = (S' <- visit_all es (W, sub);;
     OK (S'.1, Dir (files d) (assoc_set n S'.2 (subdirs d)))).
Proof.
  unfold visit_all.
  revert W d sub. induction es as [|[[root dirs] names] es IH]; intros W d sub Hn; simpl.
  - rewrite (assoc_set_id _ _ _ Hn). by destruct d.
  - rewrite (visit_names_zoom _ _ _ _ _ _ Hn), !bind_assoc.
    apply bind_ext. intros [W' sub']. simpl.
    rewrite (IH W' _ sub'); simpl; [|apply assoc_set_same].
    apply bind_ext. intros [W'' sub'']. simpl. by rewrite assoc_set_set.
Qed.

Lemma visit_all_app es1 es2 S :
  visit_all (es1 ++ es2) S = bind (visit_all es1 S) (visit_all es2).
Proof. apply for_each_app. Qed.

Lemma visit_below n e W : visit (below n e) W = visit e W.
Proof. by destruct e as [[root file] c]. Qed.

End walk_loops.

Section walk_tree.
Context {lib : Library}.


(** The files of one directory, one after the other. *)
Lemma visit_files kept rest ds W :
  NoDup (kept.*1 ++ rest.*1) →
  for_each rest.*1 (visit_at []) (W, Dir (kept ++ rest) ds)
  = (W' <- for_each ((λ f, ([], f.1, f.2)) <$> rest) visit W;;
     OK (W', Dir (kept ++ filter (λ f, stays f.1 f.2) rest) ds)).
Proof.
  revert kept W. induction rest as [|[n c] rest IH]; intros kept W Hnd.
  { simpl. done. }
  apply NoDup_app in Hnd as (Hk & Hfresh & Hrest).
  assert (Hn : n ∉ kept.*1).
  { intros Hin. apply (Hfresh _ Hin). left. }
  apply NoDup_cons in Hrest as [Hn' Hrest].
  cbn [fmap list_fmap for_each fst snd].
  unfold visit_at at 1, read_file. cbn [dir_at fst snd files mbind option_bind].
  rewrite (assoc_app_fresh _ _ _ Hn). simpl assoc. rewrite decide_True by done.
  unfold visit at 1. cbn [fst snd].
  rewrite !bind_assoc.
  unfold stays at 1. unfold stays. cbn [fst snd].
  destruct (sniff n c) as [r|e] eqn:Hs; cbn [bind]; [|done].
  rewrite !bind_assoc.
  destruct (deliver r n c W) as [W'|e]; cbn [bind]; [|done].
  destruct (moved r) eqn:Hm; cbn [negb].
  - cbn [remove_file files subdirs].
    rewrite (assoc_remove_app_fresh _ _ _ Hn). simpl assoc_remove.
    rewrite decide_True by done.
    rewrite IH.
    + apply bind_ext. intros W''. rewrite filter_cons_False; [done|].
      simpl. rewrite Hs, Hm. simpl. tauto.
    + apply NoDup_app. split_and!; [done| |done].
      intros x Hx Hx'. apply (Hfresh _ Hx). by right.
  - replace (kept ++ (n, c) :: rest) with ((kept ++ [(n, c)]) ++ rest)
      by (by rewrite <- app_assoc).
    rewrite IH.
    + apply bind_ext. intros W''. rewrite filter_cons_True.
      * by rewrite <- app_assoc.
      * simpl. rewrite Hs, Hm. done.
    + rewrite fmap_app. simpl. apply NoDup_app. split_and!; [|  |done].
      * apply NoDup_app. split_and!; [done| |apply NoDup_singleton].
        intros x Hx ->%list_elem_of_singleton. done.
      * intros x [Hx| ->%list_elem_of_singleton]%elem_of_app Hx'.
        -- apply (Hfresh _ Hx). by right.
        -- done.
Qed.

(** The subdirectories of one directory, one after the other. *)
Lemma visit_subdirs fs done rest W :
  NoDup (done.*1 ++ rest.*1) →
  Forall (λ e, ∀ W,
    visit_all (walk e.2) (W, e.2)
    = (W' <- for_each (listing e.2) visit W;; OK (W', residual stays e.2))) rest →
  visit_all (rest ≫= λ e, under e.1 <$> walk e.2) (W, Dir fs (done ++ rest))
  = (W' <- for_each (rest ≫= λ e, below e.1 <$> listing e.2) visit W;;
     OK (W', Dir fs (done ++ ((λ e, (e.1, residual stays e.2)) <$> rest)))).
Proof.
  revert done W. induction rest as [|[n sub] rest IH]; intros done W Hnd Hall.
  { simpl. done. }
  apply Forall_cons in Hall as [Hsub Hall]. simpl in Hsub.
  apply NoDup_app in Hnd as (Hk & Hfresh & Hrest).
  assert (Hn : n ∉ done.*1).
  { intros Hin. apply (Hfresh _ Hin). left. }
  apply NoDup_cons in Hrest as [Hn' Hrest].
  cbn [mbind list_bind fst snd].
  rewrite visit_all_app, for_each_app.
  rewrite (visit_all_zoom n _ _ _ sub).
  2:{ simpl. rewrite (assoc_app_fresh _ _ _ Hn). simpl. by rewrite decide_True. }
  rewrite Hsub, for_each_fmap.
  rewrite (for_each_ext _ (λ a, visit (below n a)) visit) by (intros; apply visit_below).
  rewrite !bind_assoc. apply bind_ext. intros W'. cbn [bind fst snd files subdirs].
  rewrite (assoc_set_app_fresh _ _ _ _ Hn). simpl assoc_set.
  rewrite decide_True by done.
  replace (done ++ (n, residual stays sub) :: rest)
    with ((done ++ [(n, residual stays sub)]) ++ rest) by (by rewrite <- app_assoc).
  rewrite IH; [|  |done].
  - apply bind_ext. intros W''. by rewrite <- app_assoc.
  - rewrite fmap_app. simpl. apply NoDup_app. split_and!; [| |done].
    + apply NoDup_app. split_and!; [done| |apply NoDup_singleton].
      intros x Hx ->%list_elem_of_singleton. done.
    + intros x [Hx| ->%list_elem_of_singleton]%elem_of_app Hx'.
      * apply (Hfresh _ Hx). by right.
      * done.
Qed.

(** The walk over a well-formed tree visits the files of its listing,
    each with the content it has before the walk, and leaves the files
    that are not moved. *)
Theorem visit_all_walk d :
  wf d → ∀ W,
  visit_all (walk d) (W, d)
  = (W' <- for_each (listing d) visit W;; OK (W', residual stays d)).
Proof.
  induction d as [fs ds IH] using dir_ind'. intros Hwf W.
  apply wf_inv in Hwf as (Hfs & Hds & Hall).
  rewrite walk_Dir, listing_Dir, residual_Dir.
  change (?x :: ?l) with ([x] ++ l).
  rewrite visit_all_app, for_each_app.
  unfold visit_all at 1. cbn [for_each app].
  rewrite bind_OK_r.
  pose proof (visit_files [] fs ds W) as Hf. simpl in Hf. rewrite Hf by done.
  rewrite !bind_assoc. apply bind_ext. intros W'. cbn [bind].
  pose proof (visit_subdirs (filter (λ f, stays f.1 f.2) fs) [] ds W') as Hd.
  simpl in Hd. apply Hd; [done|].
  apply Forall_forall. intros e He W''.
  rewrite Forall_forall in IH, Hall. apply IH; auto.
Qed.

End walk_tree.

(** ** Cleanup *)

Lemma dir_update_zoom n root g d sub :
  assoc n (subdirs d) = Some sub →
  dir_update (n :: root) g d
  = (sub' <- dir_update root g sub;;
     OK (Dir (files d) (assoc_set n sub' (subdirs d)))).
Proof. intros H. simpl. by rewrite H. Qed.

Lemma for_each_zoom {A} n (l : list A) (body body' : A → dir → result dir) :
  (∀ x d sub, assoc n (subdirs d) = Some sub →
     body' x d = (sub' <- body x sub;;
                  OK (Dir (files d) (assoc_set n sub' (subdirs d))))) →
  ∀ d sub, assoc n (subdirs d) = Some sub →
  for_each l body' d
  = (sub' <- for_each l body sub;;
     OK (Dir (files d) (assoc_set n sub' (subdirs d)))).
Proof.
  intros Hb. induction l as [|x l IH]; intros d sub Hn; cbn [for_each bind].
  - rewrite (assoc_set_id _ _ _ Hn). by destruct d.
  - rewrite (Hb _ _ _ Hn), !bind_assoc. apply bind_ext. intros sub'. cbn [bind].
    rewrite (IH _ sub'); cbn [files subdirs]; [|apply assoc_set_same].
    apply bind_ext. intros sub''. by rewrite assoc_set_set.
Qed.

Lemma sweep_zoom n es :
  ∀ d sub, assoc n (subdirs d) = Some sub →
  sweep (under n <$> es) d
  = (sub' <- sweep es sub;; OK (Dir (files d) (assoc_set n sub' (subdirs d)))).
Proof.
  unfold sweep. induction es as [|[[root dirs] names] es IH]; intros d sub Hn;
    cbn [fmap list_fmap for_each bind under].
  - rewrite (assoc_set_id _ _ _ Hn). by destruct d.
  - rewrite (for_each_zoom n names (λ file, dir_update root (unlink_here file))
               (λ file, dir_update (n :: root) (unlink_here file))
               (λ x d sub, dir_update_zoom n root _ d sub) d sub Hn).
    rewrite !bind_assoc. apply bind_ext. intros sub1. cbn [bind].
    rewrite (for_each_zoom n dirs (λ s, dir_update root (rmtree_here s))
               (λ s, dir_update (n :: root) (rmtree_here s))
               (λ x d sub, dir_update_zoom n root _ d sub) _ sub1);
      cbn [files subdirs]; [|apply assoc_set_same].
    rewrite !bind_assoc. apply bind_ext. intros sub2. cbn [bind].
    rewrite (IH _ sub2); cbn [files subdirs]; [|apply assoc_set_same].
    apply bind_ext. intros sub3. by rewrite !assoc_set_set.
Qed.

Lemma sweep_app es1 es2 d : sweep (es1 ++ es2) d = bind (sweep es1 d) (sweep es2).
Proof. apply for_each_app. Qed.

Lemma unlink_all fs ds :
  for_each fs.*1 (λ file, dir_update [] (unlink_here file)) (Dir fs ds)
  = OK (Dir [] ds).
Proof.
  induction fs as [|[n c] fs IH]; cbn [fmap list_fmap for_each bind fst]; [done|].
  cbn [dir_update]. unfold unlink_here at 1. simpl. rewrite !decide_True by done.
  simpl. apply IH.
Qed.

Lemma rmtree_all fs ds :
  for_each ds.*1 (λ sub, dir_update [] (rmtree_here sub)) (Dir fs ds)
  = OK (Dir fs []).
Proof.
  induction ds as [|[n c] ds IH]; cbn [fmap list_fmap for_each bind fst]; [done|].
  cbn [dir_update]. unfold rmtree_here at 1. simpl. rewrite !decide_True by done.
  simpl. apply IH.
Qed.

Lemma sweep_subdirs fs done rest :
  NoDup (done.*1 ++ rest.*1) →
  Forall (λ e, sweep (walk_bottomup e.2) e.2 = OK (Dir [] [])) rest →
  sweep (rest ≫= λ e, under e.1 <$> walk_bottomup e.2) (Dir fs (done ++ rest))
  = OK (Dir fs (done ++ ((λ e, (e.1, Dir [] [])) <$> rest))).
Proof.
  revert done. induction rest as [|[n sub] rest IH]; intros done Hnd Hall.
  { done. }
  apply Forall_cons in Hall as [Hsub Hall]. simpl in Hsub.
  apply NoDup_app in Hnd as (Hk & Hfresh & Hrest).
  assert (Hn : n ∉ done.*1).
  { intros Hin. apply (Hfresh _ Hin). left. }
  apply NoDup_cons in Hrest as [Hn' Hrest].
  cbn [mbind list_bind fst snd].
  rewrite sweep_app.
  rewrite (sweep_zoom n _ _ sub).
  2:{ simpl. rewrite (assoc_app_fresh _ _ _ Hn). simpl. by rewrite decide_True. }
  rewrite Hsub. cbn [bind files subdirs].
  rewrite (assoc_set_app_fresh _ _ _ _ Hn). simpl assoc_set.
  rewrite decide_True by done.
  replace (done ++ (n, Dir [] []) :: rest)
    with ((done ++ [(n, Dir [] [])]) ++ rest) by (by rewrite <- app_assoc).
  rewrite IH; [|  |done].
  - by rewrite <- app_assoc.
  - rewrite fmap_app. simpl. apply NoDup_app. split_and!; [| |done].
    + apply NoDup_app. split_and!; [done| |apply NoDup_singleton].
      intros x Hx ->%list_elem_of_singleton. done.
    + intros x [Hx| ->%list_elem_of_singleton]%elem_of_app Hx'.
      * apply (Hfresh _ Hx). by right.
      * done.
Qed.

(** The bottom-up sweep empties a well-formed tree and never fails. *)
Theorem sweep_empties d : wf d → sweep (walk_bottomup d) d = OK (Dir [] []).
Proof.
  induction d as [fs ds IH] using dir_ind'. intros Hwf.
  apply wf_inv in Hwf as (Hfs & Hds & Hall).
  rewrite walk_bottomup_Dir, sweep_app.
  pose proof (sweep_subdirs fs [] ds) as Hs. simpl in Hs. rewrite Hs; [|done|].
  2:{ apply Forall_forall. intros e He. rewrite Forall_forall in IH, Hall.
      apply IH; auto. }
  cbn [bind]. unfold sweep. cbn [for_each bind].
  rewrite unlink_all. cbn [bind].
  set (ds' := (λ e, (e.1, Dir [] [])) <$> ds).
  assert (ds.*1 = ds'.*1) as ->.
  { unfold ds'. rewrite <- list_fmap_compose. done. }
  rewrite rmtree_all. done.
Qed.

Lemma cleanup_loop a ws es d :
  for_each es
    (λ '(root, dirs, names) fs,
       fs' <- for_each names (λ file, remove (root, file)) fs;;
       for_each dirs (λ dir, rmtree (root, dir)) fs')
    (Filesystem a (Some d) ws)
  = (d' <- sweep es d;; OK (Filesystem a (Some d') ws)).
Proof.
  assert (Hop : ∀ {A} (l : list A) (g : A → list string * (dir → result dir)) d,
    for_each l (λ x, on_scratch (g x).1 (g x).2) (Filesystem a (Some d) ws)
    = (d' <- for_each l (λ x, dir_update (g x).1 (g x).2) d;;
       OK (Filesystem a (Some d') ws))).
  { intros A l g. induction l as [|x l IHl]; intros d0; cbn [for_each bind]; [done|].
    unfold on_scratch at 1. cbn [scratch].
    rewrite !bind_assoc. apply bind_ext. intros d1. cbn [bind].
    apply IHl. }
  unfold sweep. revert d.
  induction es as [|[[root dirs] names] es IH]; intros d; cbn [for_each bind]; [done|].
  pose proof (Hop _ names (λ file, (root, unlink_here file)) d) as H1.
  cbn [fst snd] in H1. unfold remove. cbn [fst snd]. rewrite H1.
  rewrite !bind_assoc. apply bind_ext. intros d1. cbn [bind].
  pose proof (Hop _ dirs (λ s, (root, rmtree_here s)) d1) as H2.
  cbn [fst snd] in H2. unfold rmtree. cbn [fst snd]. rewrite H2.
  rewrite !bind_assoc. apply bind_ext. intros d2. cbn [bind].
  apply IH.
Qed.

Section cleanup_facts.
Context {lib : Library}.

Lemma cleanup_wf self fs d :
  scratch fs = Some d → wf d →
  cleanup (self, fs) = OK (self, set_scratch None fs).
Proof.
  intros Hs Hwf. destruct fs as [a s ws]. simpl in Hs. subst s.
  unfold cleanup, os_walk. cbn [scratch].
  rewrite cleanup_loop, (sweep_empties _ Hwf). reflexivity.
Qed.

Lemma cleanup_absent self fs :
  scratch fs = None → cleanup (self, fs) = OK (self, fs).
Proof.
  intros Hs. unfold cleanup, os_walk. rewrite Hs. cbn [for_each bind].
  by rewrite Hs.
Qed.

Lemma cleanup_removes st st' : cleanup st = OK st' → scratch st'.2 = None.
Proof.
  destruct st as [self fs]. unfold cleanup.
  destruct (for_each _ _ fs) as [fs1|e]; cbn [bind]; [|done].
  destruct (scratch fs1) as [d|] eqn:Hs.
  - unfold rmdir_scratch. rewrite Hs.
    destruct d as [[|] [|]]; cbn [bind]; try done.
    by intros [= <-].
  - by intros [= <-].
Qed.

End cleanup_facts.

Section walk_results.
Context {lib : Library}.


(** [organize_files_and_identify_format] on a well-formed scratch area
    is one [visit] for each file of its listing, in order. *)
Theorem organize_walk self fs d w :
  scratch fs = Some d → wf d → workspaces fs !! base_dir self = Some w →
  organize_files_and_identify_format (self, fs)
  = (W' <- for_each (listing d) visit
             (self, <[base_dir self := with_annotations w]> (workspaces fs));;
     OK (W'.1, Filesystem (archives fs) (Some (residual stays d)) W'.2)).
Proof.
  intros Hs Hwf Hw. destruct fs as [a s ws]. simpl in *. subst s.
  unfold organize_files_and_identify_format.
  unfold make_annotations_dir. cbn [workspaces]. rewrite Hw. cbn [bind].
  unfold os_walk, set_workspace. cbn [scratch archives workspaces].
  pose proof (organize_loop a (walk d)
                ((self, <[base_dir self := with_annotations w]> ws), d)) as H.
  etrans; [exact H|].
  rewrite (visit_all_walk _ Hwf), !bind_assoc.
  apply bind_ext. intros W'. reflexivity.
Qed.

Lemma organize_absent self fs w :
  scratch fs = None → workspaces fs !! base_dir self = Some w →
  organize_files_and_identify_format (self, fs)
  = OK (self, set_workspace (base_dir self) (with_annotations w) fs).
Proof.
  intros Hs Hw.
  unfold organize_files_and_identify_format.
  unfold make_annotations_dir. rewrite Hw. cbn [bind].
  unfold os_walk. simpl. rewrite Hs. reflexivity.
Qed.

Lemma sniff_image file c : sniff file c = OK Image ↔ is_image file = true.
Proof.
  unfold sniff, is_image.
  destruct (Py.endswith_any (Py.lower file) image_extensions); [done|].
  split; [|done].
  repeat match goal with
  | |- context [if ?b then _ else _] => destruct b
  | |- context [try_except ?m ?c ?h] => destruct (try_except m c h) as [[]|]
  end; simpl; congruence.
Qed.

Lemma sniff_routes file c r :
  sniff file c = OK r →
  r ∈ [Image; Annotation "xml" "Pascal VOC"; Annotation "yolo" "YOLO";
       Annotation "coco" "COCO"; Unclassified].
Proof.
  unfold sniff.
  repeat match goal with
  | |- context [if ?b then _ else _] => destruct b
  | |- context [try_except ?m ?c ?h] => destruct (try_except m c h) as [[]|]
  end; simpl; intros H; simplify_eq; set_solver.
Qed.

Lemma image_entries_cons e l :
  image_entries (e :: l)
  = if is_image e.1.2 then e :: image_entries l else image_entries l.
Proof.
  unfold image_entries. destruct (is_image e.1.2) eqn:E.
  - rewrite filter_cons_True; [done|]. cbv beta. by rewrite E.
  - rewrite filter_cons_False; [done|]. cbv beta. rewrite E. intros [].
Qed.

(** The object after the walk over a list of files. *)
Lemma walk_object l W W' :
  for_each l visit W = OK W' →
  base_dir W'.1 = base_dir W.1
  ∧ num_images W'.1 = num_images W.1 + length (image_entries l)
  ∧ num_annotations W'.1 = num_annotations W.1 + length (omap format_of l)
  ∧ identified_format W'.1
    = match last (omap format_of l) with
      | Some format => Some format
      | None => identified_format W.1
      end
  ∧ Forall (λ e, ∃ r, sniff e.1.2 e.2 = OK r) l.
Proof.
  revert W. induction l as [|e l IH]; intros W; cbn [for_each bind].
  { intros [= <-]. simpl. rewrite !Nat.add_0_r. by split_and!. }
  unfold visit at 1. rewrite !bind_assoc.
  destruct (sniff e.1.2 e.2) as [r|] eqn:Hs; cbn [bind]; [|done].
  destruct (deliver r e.1.2 e.2 W) as [W1|] eqn:Hd; cbn [bind]; [|done].
  intros H. apply IH in H as (Hb & Hi & Ha & Hf & Hall).
  rewrite image_entries_cons. cbn [omap list_omap].
  assert (Hfo : format_of e
                = match r with Annotation _ f => Some f | _ => None end).
  { unfold format_of, route_or_unclassified. by rewrite Hs. }
  rewrite Hfo. clear Hfo.
  assert (Hr' := sniff_routes _ _ _ Hs).
  assert (Himg : is_image e.1.2 = true ↔ r = Image).
  { rewrite <- sniff_image, Hs. split; congruence. }
  destruct r as [|folder format|]; simpl in Hd.
  - destruct (W.2 !! base_dir W.1); [|done]. injection Hd as <-.
    simpl in *. rewrite (proj2 Himg eq_refl). simpl.
    split_and!; try done; try lia.
    constructor; eauto.
  - destruct (W.2 !! base_dir W.1) as [w|]; [|done].
    destruct (default ∅ (default ∅ (annotations w) !! folder) !! e.1.2); [done|].
    injection Hd as <-. simpl in *.
    destruct (is_image e.1.2); [by destruct Himg as [Himg _]; specialize (Himg eq_refl)|].
    rewrite last_cons. cbn [length].
    split_and!; [done|lia|lia| |constructor; eauto].
    rewrite Hf. by destruct (last _).
  - injection Hd as <-.
    destruct (is_image e.1.2); [by destruct Himg as [Himg _]; specialize (Himg eq_refl)|].
    split_and!; try done.
    constructor; eauto.
Qed.

Lemma moved_images_cons e l m :
  moved_images (e :: l) m = moved_images l (<[e.1.2 := e.2]> m).
Proof. done. Qed.

(** The workspace after the walk over a list of files. *)
Lemma walk_workspace l W W' w :
  for_each l visit W = OK W' →
  W.2 !! base_dir W.1 = Some w →
  ∃ w', W'.2 !! base_dir W.1 = Some w'
        ∧ train_images w' = moved_images (image_entries l) (train_images w)
        ∧ validation_images w' = validation_images w
        ∧ cocos w' = cocos w
        ∧ ∀ k, k ≠ base_dir W.1 → W'.2 !! k = W.2 !! k.
Proof.
  revert W w. induction l as [|e l IH]; intros W w; cbn [for_each bind].
  { intros [= <-] Hw. exists w. by split_and!. }
  unfold visit at 1. rewrite !bind_assoc.
  destruct (sniff e.1.2 e.2) as [r|] eqn:Hs; cbn [bind]; [|done].
  destruct (deliver r e.1.2 e.2 W) as [W1|] eqn:Hd; cbn [bind]; [|done].
  intros H Hw.
  assert (Himg : is_image e.1.2 = true ↔ r = Image).
  { rewrite <- sniff_image, Hs. split; congruence. }
  rewrite image_entries_cons.
  destruct r as [|folder format|]; simpl in Hd; rewrite ?Hw in Hd.
  - injection Hd as <-. rewrite (proj2 Himg eq_refl).
    eapply IH in H as (w' & Hw' & Ht & Hv & Hc & Ho); [|apply lookup_insert_eq].
    simpl in *. exists w'. split_and!; try done.
    intros k Hk. rewrite Ho by done. by rewrite lookup_insert_ne.
  - destruct (default ∅ (default ∅ (annotations w) !! folder) !! e.1.2); [done|].
    injection Hd as <-.
    destruct (is_image e.1.2); [by destruct Himg as [Himg _]; specialize (Himg eq_refl)|].
    eapply IH in H as (w' & Hw' & Ht & Hv & Hc & Ho); [|apply lookup_insert_eq].
    simpl in *. exists w'. split_and!; try done.
    intros k Hk. rewrite Ho by done. by rewrite lookup_insert_ne.
  - injection Hd as <-.
    destruct (is_image e.1.2); [by destruct Himg as [Himg _]; specialize (Himg eq_refl)|].
    eapply IH in H as (w' & Hw' & Ht & Hv & Hc & Ho); [|done].
    exists w'. by split_and!.
Qed.

End walk_results.

(** ** The branches of [classify] *)

Lemma txt_not_image file :
  Py.endswith file ".txt" = true → is_image file = false.
Proof.
  apply (annotation_extension_not_image _ _ "t"%char (Py.chars ".tx")); [reflexivity|].
  vm_compute. discriminate.
Qed.

Lemma json_not_image file :
  Py.endswith file ".json" = true → is_image file = false.
Proof.
  apply (annotation_extension_not_image _ _ "n"%char (Py.chars ".jso")); [reflexivity|].
  vm_compute. discriminate.
Qed.

Lemma endswith_last_ne file ext1 ext2 c1 c2 x1 x2 :
  Py.chars ext1 = x1 ++ [c1] → Py.chars ext2 = x2 ++ [c2] → c1 ≠ c2 →
  Py.endswith file ext1 = true → Py.endswith file ext2 = false.
Proof.
  intros H1 H2 Hne He1.
  destruct (Py.endswith file ext2) eqn:He2; [|done].
  pose proof (endswith_last _ _ _ _ H1 He1).
  pose proof (endswith_last _ _ _ _ H2 He2). congruence.
Qed.

Lemma json_not_xml file :
  Py.endswith file ".json" = true → Py.endswith file ".xml" = false.
Proof.
  by apply (endswith_last_ne _ _ _ "n"%char "l"%char (Py.chars ".jso") (Py.chars ".xm")).
Qed.

Lemma json_not_txt file :
  Py.endswith file ".json" = true → Py.endswith file ".txt" = false.
Proof.
  by apply (endswith_last_ne _ _ _ "n"%char "t"%char (Py.chars ".jso") (Py.chars ".tx")).
Qed.

Lemma txt_not_xml file :
  Py.endswith file ".txt" = true → Py.endswith file ".xml" = false.
Proof.
  by apply (endswith_last_ne _ _ _ "t"%char "l"%char (Py.chars ".tx") (Py.chars ".xm")).
Qed.



Section branches.
Context {lib : Library}.

Lemma classify_image root file self fs d c w :
  is_image file = true →
  scratch fs = Some d → read_file root file d = Some c →
  workspaces fs !! base_dir self = Some w →
  classify root file (self, fs)
  = OK (found_image self,
        Filesystem (archives fs) (Some (remove_file root file d))
          (<[base_dir self :=
               Workspace (<[file := c]> (train_images w)) (validation_images w)
                 (cocos w) (annotations w)]> (workspaces fs))).
Proof.
  intros Hi Hs Hr Hw. destruct fs as [a s ws]. cbn [scratch workspaces archives] in *. subst s.
  rewrite classify_visit_at. unfold visit_at. cbn [fst snd]. rewrite Hr.
  rewrite (proj2 (sniff_image file c) Hi). cbn [bind deliver fst snd moved].
  rewrite Hw. reflexivity.
Qed.





End branches.

(** ** The claims *)

(** C1 (the code does not do this).  A second [__init__] on the same
    archive name finds the workspace of the first and takes it over:
    it computes the same [converted_<name>] directory name, with no
    numeric suffix, and creates no new directory. *)
Theorem C1_second_run_reuses_workspace (zip_path : string) (fs : filesystem) :
  let first := __init__ zip_path fs in
  let second := __init__ zip_path first.2 in
  base_dir first.1 = "converted_" +:+ Py.basename zip_path
  ∧ base_dir second.1 = base_dir first.1
  ∧ base_dir first.1 ∈ dom (workspaces first.2)
  ∧ dom (workspaces second.2) = dom (workspaces first.2).
Proof.
  unfold __init__, _create_folder_structure, set_workspace. cbn.
  split_and!; [done|done| |].
  - rewrite dom_insert_L. set_solver.
  - rewrite !dom_insert_L. set_solver.
Qed.

(** C2 (the code does not do this).  On a [.json] file whose bytes do
    not decode, or whose top-level value is not a container,
    [_is_coco] raises ([UnicodeDecodeError], [TypeError]) instead of
    returning [False], and the exception leaves [classify], where it
    ends the walk. *)
Theorem C2_coco_sniffer_raises {lib : Library} (root : list string)
    (file : string) (self : AnnotationExplorer) (fs : filesystem) :
  Py.endswith file ".json" = true →
  (∀ bytes, read (root, file) fs = OK (Binary bytes) →
     _is_coco (root, file) fs = Raise UnicodeDecodeError
     ∧ classify root file (self, fs) = Raise UnicodeDecodeError)
  ∧ (∀ text data,
       read (root, file) fs = OK (Text text) →
       json_loads text = Some data → is_container data = false →
       _is_coco (root, file) fs = Raise TypeError
       ∧ classify root file (self, fs) = Raise TypeError).
Proof.
  intros Hj.
  pose proof (json_not_image _ Hj) as Hi.
  pose proof (json_not_xml _ Hj) as Hx.
  pose proof (json_not_txt _ Hj) as Ht.
  unfold is_image, image_extensions in Hi.
  split.
  - intros bytes Hr.
    assert (Hc : _is_coco (root, file) fs = Raise UnicodeDecodeError).
    { unfold _is_coco. rewrite Hr. reflexivity. }
    split; [done|]. unfold classify. rewrite Hi, Hx, Ht, Hj, Hc. reflexivity.
  - intros text data Hr Hl Hd.
    assert (Hc : _is_coco (root, file) fs = Raise TypeError).
    { unfold _is_coco. rewrite Hr. cbn [bind coco_body]. rewrite Hl.
      destruct data; try discriminate Hd; reflexivity. }
    split; [done|]. unfold classify. rewrite Hi, Hx, Ht, Hj, Hc. reflexivity.
Qed.

Lemma C2_coco_sniffer_raises_witness :
  _is_coco (lib := Sample.library) ([], "data.json")
    (Sample.one_file "data.json" (Text "5")).2 = Raise TypeError
  ∧ organize_files_and_identify_format (lib := Sample.library)
      (Sample.one_file "data.json" (Text "5")) = Raise TypeError.
Proof.
  split.
  - exact (proj1 (proj2 (C2_coco_sniffer_raises (lib := Sample.library)
             [] "data.json" (Sample.one_file "data.json" (Text "5")).1
             (Sample.one_file "data.json" (Text "5")).2 eq_refl)
           "5" (JInt 5) eq_refl eq_refl eq_refl)).
  - vm_compute. reflexivity.
Defined.





(** ** The images folder *)

Lemma is_image_nocase file : is_image file = true ↔ has_image_extension file.
Proof.
  unfold is_image, Py.endswith_any, has_image_extension.
  rewrite existsb_exists. split.
  - intros (ext & Hin%list_elem_of_In & He). exists ext. split; [done|].
    apply endswith_true in He as [stem' He]. rewrite chars_lower in He.
    apply fmap_app_inv in He as (stem & tail & _ & Ht & Hf).
    exists stem, tail. done.
  - intros (ext & Hin & stem & tail & Hf & Ht). exists ext.
    split; [by apply list_elem_of_In|].
    apply endswith_true. exists (Py.lower_char <$> stem).
    by rewrite chars_lower, Hf, fmap_app, Ht.
Qed.

Lemma moved_images_app l1 l2 m :
  moved_images (l1 ++ l2) m = moved_images l2 (moved_images l1 m).
Proof. apply foldl_app. Qed.

Lemma moved_images_other l m k :
  Forall (λ e : entry, e.1.2 ≠ k) l → moved_images l m !! k = m !! k.
Proof.
  revert m. induction l as [|e l IH]; intros m Hall; [done|].
  apply Forall_cons in Hall as [Hk Hall].
  rewrite moved_images_cons, IH by done. by rewrite lookup_insert_ne.
Qed.

Lemma moved_images_last before (e : entry) after m :
  Forall (λ e' : entry, e'.1.2 ≠ e.1.2) after →
  moved_images (before ++ e :: after) m !! e.1.2 = Some e.2.
Proof.
  intros Hall. rewrite moved_images_app, moved_images_cons.
  rewrite moved_images_other by done. apply lookup_insert_eq.
Qed.

Lemma moved_images_dom l m :
  dom (moved_images l m) = dom m ∪ list_to_set ((λ e : entry, e.1.2) <$> l).
Proof.
  revert m. induction l as [|e l IH]; intros m.
  - simpl. set_solver.
  - rewrite moved_images_cons, IH, dom_insert_L. simpl. set_solver.
Qed.

Lemma size_union_le (X Y : gset string) : size (X ∪ Y) ≤ size X + size Y.
Proof.
  rewrite size_union_alt.
  assert (Hsub : Y ∖ X ⊆ Y) by set_solver.
  apply subseteq_size in Hsub. lia.
Qed.

Lemma size_list_to_set_le (l : list string) :
  size (list_to_set l : gset string) ≤ length l.
Proof.
  induction l as [|x l IH].
  - rewrite list_to_set_nil, size_empty. done.
  - rewrite list_to_set_cons. cbn [length].
    etrans; [apply size_union_le|]. rewrite size_singleton. lia.
Qed.

Lemma size_list_to_set_lt (l : list string) :
  ¬ NoDup l → size (list_to_set l : gset string) < length l.
Proof.
  induction l as [|x l IH]; intros Hnd.
  - destruct Hnd. constructor.
  - simpl. destruct (decide (x ∈ l)) as [Hin|Hnin].
    + assert ({[x]} ∪ list_to_set l = (list_to_set l : gset string)) as ->.
      { apply subseteq_union_1_L. apply singleton_subseteq_l.
        by apply elem_of_list_to_set. }
      pose proof (size_list_to_set_le l). lia.
    + assert (¬ NoDup l) as Hl.
      { intros Hl. apply Hnd. by constructor. }
      apply IH in Hl.
      pose proof (size_union_le ({[x]} : gset string) (list_to_set l)).
      rewrite size_singleton in *. lia.
Qed.

Lemma moved_images_size l :
  ¬ NoDup ((λ e : entry, e.1.2) <$> l) →
  size (moved_images l ∅) < length l.
Proof.
  intros Hnd. rewrite <- size_dom, moved_images_dom, dom_empty_L, (left_id_L ∅ (∪)).
  apply size_list_to_set_lt in Hnd. by rewrite length_fmap in Hnd.
Qed.

(** What a completed [organize_files_and_identify_format] leaves. *)
Lemma organize_OK {lib : Library} self fs d w self' fs' :
  scratch fs = Some d → wf d → workspaces fs !! base_dir self = Some w →
  organize_files_and_identify_format (self, fs) = OK (self', fs') →
  ∃ ws',
    for_each (listing d) visit
      (self, <[base_dir self := with_annotations w]> (workspaces fs))
    = OK (self', ws')
    ∧ fs' = Filesystem (archives fs) (Some (residual stays d)) ws'.
Proof.
  intros Hs Hwf Hw. rewrite (organize_walk _ _ _ _ Hs Hwf Hw).
  destruct (for_each _ _ _) as [[self1 ws1]|]; cbn [bind]; [|done].
  intros [= <- <-]. eauto.
Qed.

Lemma sample_tree_wf : wf Sample.tree.
Proof.
  repeat constructor;
    apply (bool_decide_unpack _); vm_compute; exact I.
Qed.

Lemma sample_scratch : scratch Sample.extracted.2 = Some Sample.tree.
Proof. vm_compute. reflexivity. Qed.

Lemma sample_workspace :
  workspaces Sample.extracted.2 !! base_dir Sample.extracted.1
  = Some Sample.fresh_workspace.
Proof. vm_compute. reflexivity. Qed.

Lemma sample_organize :
  organize_files_and_identify_format (lib := Sample.library)
    (Sample.extracted.1, Sample.extracted.2)
  = OK (Sample.organized.1, Sample.organized.2).
Proof. vm_compute. reflexivity. Qed.

(** C3.  The object records one format at most, the one of the last
    file of the walk that a sniffer accepts: every acceptance writes
    its format literal over the recorded one, so when the last
    accepted file is a YOLO file the result is ['YOLO'], whatever was
    accepted before. *)
Theorem C3_last_match_wins {lib : Library} (self self' : AnnotationExplorer)
    (fs fs' : filesystem) (d : dir) (w : workspace) :
  scratch fs = Some d → wf d → workspaces fs !! base_dir self = Some w →
  organize_files_and_identify_format (self, fs) = OK (self', fs') →
  identified_format self'
  = match last (omap format_of (listing d)) with
    | Some format => Some format
    | None => identified_format self
    end
  ∧ (∀ earlier e later,
       listing d = earlier ++ e :: later →
       format_of e = Some "YOLO" →
       Forall (λ e', format_of e' = None) later →
       identified_format self' = Some "YOLO").
Proof.
  intros Hs Hwf Hw Ho.
  destruct (organize_OK _ _ _ _ _ _ Hs Hwf Hw Ho) as (ws' & Hwalk & _).
  apply walk_object in Hwalk as (_ & _ & _ & Hf & _). cbn [fst] in Hf.
  split; [done|].
  intros earlier e later Hl He Hlater. rewrite Hf, Hl.
  rewrite omap_app. cbn [omap list_omap]. rewrite He.
  assert (omap format_of later = []) as ->.
  { clear -Hlater. induction Hlater as [|x l Hx _ IH]; [done|].
    cbn [omap list_omap]. by rewrite Hx. }
  by rewrite last_snoc.
Qed.

Lemma C3_last_match_wins_witness :
  identified_format Sample.organized.1 = Some "YOLO".
Proof.
  refine (proj2 (C3_last_match_wins (lib := Sample.library)
    Sample.extracted.1 Sample.organized.1 Sample.extracted.2 Sample.organized.2
    Sample.tree Sample.fresh_workspace
    sample_scratch sample_tree_wf sample_workspace sample_organize)
    [([], "img1.jpg", Binary "a"); ([], "img2.PNG", Binary "b");
     ([], "ann1.xml", Text Sample.voc_text);
     ([], "notes.txt", Text "see the readme")]
    (["labels"], "img1.txt", Text "0 0.5 0.5 0.25 0.25")
    [(["nested"; "deeper"], "img1.jpg", Binary "c")] _ _ _).
  - vm_compute. reflexivity.
  - vm_compute. reflexivity.
  - repeat constructor.
Defined.

(** C6.  A file whose name ends in [.png], [.jpg] or [.jpeg], in any
    letter case, is moved into the images folder and counted, whatever
    it holds; after the walk the image counter has grown by the number
    of such files in the scratch area. *)
Theorem C6_images_by_extension {lib : Library} (self : AnnotationExplorer)
    (fs : filesystem) (d : dir) (w : workspace) :
  scratch fs = Some d → wf d → workspaces fs !! base_dir self = Some w →
  (∀ file, is_image file = true ↔ has_image_extension file)
  ∧ (∀ root file c,
       has_image_extension file → read_file root file d = Some c →
       classify root file (self, fs)
       = OK (found_image self,
             Filesystem (archives fs) (Some (remove_file root file d))
               (<[base_dir self :=
                    Workspace (<[file := c]> (train_images w))
                      (validation_images w) (cocos w) (annotations w)]>
                  (workspaces fs))))
  ∧ (∀ self' fs',
       organize_files_and_identify_format (self, fs) = OK (self', fs') →
       num_images self'
       = num_images self + length (image_entries (listing d))).
Proof.
  intros Hs Hwf Hw. split_and!.
  - apply is_image_nocase.
  - intros root file c Hi%is_image_nocase Hr. by apply classify_image.
  - intros self' fs' Ho.
    destruct (organize_OK _ _ _ _ _ _ Hs Hwf Hw Ho) as (ws' & Hwalk & _).
    by apply walk_object in Hwalk as (_ & Hn & _).
Qed.

Lemma C6_images_by_extension_witness :
  num_images Sample.organized.1
  = num_images Sample.extracted.1 + length (image_entries (listing Sample.tree)).
Proof.
  exact (proj2 (proj2 (C6_images_by_extension (lib := Sample.library)
    Sample.extracted.1 Sample.extracted.2 Sample.tree Sample.fresh_workspace
    sample_scratch sample_tree_wf sample_workspace))
    Sample.organized.1 Sample.organized.2 sample_organize).
Defined.

(** C10.  An image is moved to the path made of the images folder and
    its bare name: every image file is counted, and of the image files
    with one name the folder holds the last one only, so that two
    image files with the same name at different places of the scratch
    area leave fewer files in a fresh images folder than the counter
    says. *)
Theorem C10_same_name_images_overwrite {lib : Library}
    (self self' : AnnotationExplorer) (fs fs' : filesystem) (d : dir)
    (w : workspace) :
  scratch fs = Some d → wf d → workspaces fs !! base_dir self = Some w →
  organize_files_and_identify_format (self, fs) = OK (self', fs') →
  let images := image_entries (listing d) in
  ∃ w', workspaces fs' !! base_dir self = Some w'
    ∧ num_images self' = num_images self + length images
    ∧ train_images w' = moved_images images (train_images w)
    ∧ (∀ earlier e later,
         images = earlier ++ e :: later →
         Forall (λ e', e'.1.2 ≠ e.1.2) later →
         train_images w' !! e.1.2 = Some e.2)
    ∧ (num_images self = 0 → train_images w = ∅ →
       ¬ NoDup ((λ e, e.1.2) <$> images) →
       size (train_images w') < num_images self').
Proof.
  intros Hs Hwf Hw Ho images.
  destruct (organize_OK _ _ _ _ _ _ Hs Hwf Hw Ho) as (ws' & Hwalk & ->).
  pose proof (walk_object _ _ _ Hwalk) as (_ & Hn & _).
  eapply walk_workspace in Hwalk as (w' & Hw' & Ht & _); [|apply lookup_insert_eq].
  cbn [fst snd] in *. exists w'. fold images in Hn, Ht.
  split_and!; [done|done|done| |].
  - intros earlier e later Hi Hl. rewrite Ht, Hi. by apply moved_images_last.
  - intros H0 He Hnd. rewrite Ht, Hn, H0. cbn [with_annotations train_images].
    rewrite He. simpl. by apply moved_images_size.
Qed.

Lemma C10_same_name_images_overwrite_witness :
  ∃ w', workspaces Sample.organized.2 !! base_dir Sample.extracted.1 = Some w'
        ∧ size (train_images w') < num_images Sample.organized.1
        ∧ train_images w' !! "img1.jpg" = Some (Binary "c").
Proof.
  destruct (C10_same_name_images_overwrite (lib := Sample.library)
    Sample.extracted.1 Sample.organized.1 Sample.extracted.2 Sample.organized.2
    Sample.tree Sample.fresh_workspace
    sample_scratch sample_tree_wf sample_workspace sample_organize)
    as (w' & Hw' & _ & _ & Hlast & Hsize).
  exists w'. split; [exact Hw'|]. split.
  - apply Hsize.
    + vm_compute. reflexivity.
    + vm_compute. reflexivity.
    + apply (bool_decide_eq_false_1 _). vm_compute. reflexivity.
  - refine (Hlast [([], "img1.jpg", Binary "a"); ([], "img2.PNG", Binary "b")]
              (["nested"; "deeper"], "img1.jpg", Binary "c") [] _ _).
    + vm_compute. reflexivity.
    + constructor.
Defined.

(** ** Every file once *)

Lemma below_paths n (l : list entry) :
  (below n <$> l).*1 = (λ p, (n :: p.1, p.2)) <$> l.*1.
Proof.
  rewrite <- !list_fmap_compose. apply list_fmap_ext.
  by intros ? [[root file] c] _.
Qed.

Lemma subdirs_paths (ds : list (string * dir)) p :
  p ∈ (ds ≫= λ e, below e.1 <$> listing e.2).*1 →
  ∃ n rest, p.1 = n :: rest ∧ n ∈ ds.*1.
Proof.
  induction ds as [|[n sub] ds IH]; cbn [mbind list_bind fst snd].
  - by intros ?%elem_of_nil.
  - rewrite fmap_app, elem_of_app, below_paths. intros [Hp|Hp].
    + apply list_elem_of_fmap in Hp as (q & -> & _).
      exists n, q.1. split; [done|]. left.
    + apply IH in Hp as (m & rest & Hp & Hm). exists m, rest.
      split; [done|]. by right.
Qed.

Lemma subdirs_paths_NoDup (ds : list (string * dir)) :
  NoDup ds.*1 →
  Forall (λ e, NoDup (listing e.2).*1) ds →
  NoDup (ds ≫= λ e, below e.1 <$> listing e.2).*1.
Proof.
  induction ds as [|[n sub] ds IH]; intros Hnd Hall; cbn [mbind list_bind fst snd].
  { constructor. }
  apply NoDup_cons in Hnd as [Hn Hnd].
  apply Forall_cons in Hall as [Hsub Hall]. cbn [snd] in Hsub.
  rewrite fmap_app. apply NoDup_app. split_and!.
  - rewrite below_paths.
    assert (Inj (=) (=) (λ p : list string * string, (n :: p.1, p.2))).
    { intros [r1 f1] [r2 f2] [= -> ->]. done. }
    by apply (NoDup_fmap_2 _).
  - intros p Hp Hp'. rewrite below_paths in Hp.
    apply list_elem_of_fmap in Hp as (q & -> & _).
    apply subdirs_paths in Hp' as (m & rest & [= <- _] & Hm). done.
  - by apply IH.
Qed.

(** The walk reaches every file of a well-formed tree under one path
    only. *)
Lemma listing_NoDup d : wf d → NoDup (listing d).*1.
Proof.
  induction d as [fs ds IH] using dir_ind'. intros Hwf.
  apply wf_inv in Hwf as (Hfs & Hds & Hall).
  rewrite listing_Dir, fmap_app. apply NoDup_app. split_and!.
  - match goal with
    | |- NoDup ?l =>
        replace l with ((λ n : string, (@nil string, n)) <$> fs.*1)
          by (rewrite <- !list_fmap_compose; done)
    end.
    assert (Inj (=) (=) (λ n : string, (@nil string, n))).
    { by intros ?? [= ->]. }
    by apply (NoDup_fmap_2 _).
  - intros p Hp Hp'.
    rewrite <- list_fmap_compose in Hp.
    apply list_elem_of_fmap in Hp as (f & -> & _).
    apply subdirs_paths in Hp' as (m & rest & Hp' & _). discriminate Hp'.
  - apply subdirs_paths_NoDup; [done|].
    rewrite Forall_forall in IH, Hall. apply Forall_forall. auto.
Qed.

Lemma filter_fmap_entry (keep : string → content → bool) (g : string * content → entry)
    (fs : list (string * content)) :
  (∀ f, (g f).1.2 = f.1 ∧ (g f).2 = f.2) →
  filter (λ e : entry, keep e.1.2 e.2) (g <$> fs)
  = g <$> filter (λ f, keep f.1 f.2) fs.
Proof.
  intros Hg. induction fs as [|f fs IH]; [done|].
  cbn [fmap list_fmap]. destruct (Hg f) as [H1 H2].
  rewrite !filter_cons. cbv beta. rewrite H1, H2, IH.
  destruct (keep f.1 f.2).
  - by rewrite !decide_True by done.
  - by rewrite !decide_False by (intros []).
Qed.

Lemma filter_below (keep : string → content → bool) n (l : list entry) :
  filter (λ e : entry, keep e.1.2 e.2) (below n <$> l)
  = below n <$> filter (λ e : entry, keep e.1.2 e.2) l.
Proof.
  induction l as [|[[root file] c] l IH]; [done|].
  cbn [fmap list_fmap below].
  rewrite !filter_cons. cbn [fst snd]. rewrite IH.
  destruct (keep file c).
  - by rewrite !decide_True by done.
  - by rewrite !decide_False by (intros []).
Qed.

(** The files of the residual tree are the kept files of the tree. *)
Lemma listing_residual keep d :
  listing (residual keep d) = filter (λ e : entry, keep e.1.2 e.2) (listing d).
Proof.
  induction d as [fs ds IH] using dir_ind'.
  rewrite residual_Dir, !listing_Dir, filter_app. f_equal.
  - by rewrite filter_fmap_entry.
  - induction IH as [|[n sub] ds Hsub _ IHds]; [done|].
    cbn [fmap list_fmap mbind list_bind fst snd] in *.
    rewrite filter_app, filter_below, Hsub, IHds. done.
Qed.

(** ** The buckets *)

Section buckets.
Context {lib : Library}.

Lemma deliver_base r file c W W' :
  deliver r file c W = OK W' → base_dir W'.1 = base_dir W.1.
Proof.
  destruct r as [|folder format|]; simpl.
  - destruct (W.2 !! base_dir W.1); [|done]. by intros [= <-].
  - destruct (W.2 !! base_dir W.1) as [w|]; [|done].
    destruct (default ∅ (default ∅ (annotations w) !! folder) !! file); [done|].
    by intros [= <-].
  - by intros [= <-].
Qed.

Lemma deliver_keeps_annotation r file c W W' folder name x :
  deliver r file c W = OK W' →
  annotation_file W folder name = Some x →
  annotation_file W' folder name = Some x.
Proof.
  unfold annotation_file.
  destruct r as [|folder' format|]; simpl.
  - destruct (W.2 !! base_dir W.1) as [w|]; [|done]. intros [= <-]. simpl.
    by rewrite lookup_insert_eq.
  - destruct (W.2 !! base_dir W.1) as [w|]; [|done].
    destruct (default ∅ (default ∅ (annotations w) !! folder') !! file) eqn:Hd; [done|].
    intros [= <-]. simpl. rewrite lookup_insert_eq. simpl.
    destruct (annotations w) as [ann|]; [|done]. simpl in *.
    destruct (decide (folder' = folder)) as [->|Hne].
    + rewrite lookup_insert_eq. simpl.
      destruct (ann !! folder) as [dest|]; [|done]. simpl in *.
      intros Hx. rewrite lookup_insert_ne; [done|]. congruence.
    + by rewrite lookup_insert_ne.
  - by intros [= <-].
Qed.

Lemma deliver_puts_annotation folder format file c W W' :
  deliver (Annotation folder format) file c W = OK W' →
  annotation_file W' folder file = Some c.
Proof.
  unfold annotation_file. simpl.
  destruct (W.2 !! base_dir W.1) as [w|]; [|done].
  destruct (default ∅ (default ∅ (annotations w) !! folder) !! file); [done|].
  intros [= <-]. simpl. rewrite lookup_insert_eq. simpl.
  rewrite lookup_insert_eq. simpl. by rewrite lookup_insert_eq.
Qed.

Lemma deliver_keeps_image r file c W W' name :
  deliver r file c W = OK W' →
  is_Some (image_file W name) → is_Some (image_file W' name).
Proof.
  unfold image_file.
  destruct r as [|folder' format|]; simpl.
  - destruct (W.2 !! base_dir W.1) as [w|]; [|done]. intros [= <-]. simpl.
    rewrite lookup_insert_eq. simpl.
    destruct (decide (file = name)) as [->|Hne].
    + rewrite lookup_insert_eq. eauto.
    + by rewrite lookup_insert_ne.
  - destruct (W.2 !! base_dir W.1) as [w|]; [|done].
    destruct (default ∅ (default ∅ (annotations w) !! folder') !! file); [done|].
    intros [= <-]. simpl. by rewrite lookup_insert_eq.
  - by intros [= <-].
Qed.

Lemma deliver_puts_image file c W W' :
  deliver Image file c W = OK W' → image_file W' file = Some c.
Proof.
  unfold image_file. simpl.
  destruct (W.2 !! base_dir W.1) as [w|]; [|done].
  intros [= <-]. simpl. rewrite lookup_insert_eq. simpl.
  by rewrite lookup_insert_eq.
Qed.

End buckets.

Section each_file.
Context {lib : Library}.

Lemma to_images_route e : to_images (route_or_unclassified e) = is_image e.1.2.
Proof.
  unfold route_or_unclassified.
  destruct (is_image e.1.2) eqn:Hi.
  - apply (sniff_image _ e.2) in Hi. by rewrite Hi.
  - destruct (sniff e.1.2 e.2) as [r|] eqn:Hs; [|done].
    destruct r; try done. apply sniff_image in Hs. congruence.
Qed.

Lemma stays_route e : stays e.1.2 e.2 = negb (moved (route_or_unclassified e)).
Proof. unfold stays, route_or_unclassified. by destruct (sniff e.1.2 e.2). Qed.

Lemma images_by_route l :
  image_entries l = filter (λ e, to_images (route_or_unclassified e)) l.
Proof.
  unfold image_entries. apply list_filter_iff. intros e.
  by rewrite to_images_route.
Qed.

Lemma annotations_by_route l :
  length (omap format_of l)
  = length (filter (λ e, to_annotations (route_or_unclassified e)) l).
Proof.
  induction l as [|e l IH]; [done|].
  cbn [omap list_omap]. rewrite filter_cons. unfold format_of at 1.
  destruct (route_or_unclassified e); simpl; by rewrite IH.
Qed.

Lemma visit_delivers e W W' :
  visit e W = OK W' →
  sniff e.1.2 e.2 = OK (route_or_unclassified e)
  ∧ deliver (route_or_unclassified e) e.1.2 e.2 W = OK W'.
Proof.
  unfold visit, route_or_unclassified.
  destruct (sniff e.1.2 e.2) as [r|]; cbn [bind]; [|done]. done.
Qed.

Lemma delivered_kept e' e W W' :
  visit e' W = OK W' → delivered W e → delivered W' e.
Proof.
  intros [_ Hd]%visit_delivers. unfold delivered.
  destruct (route_or_unclassified e) as [|folder format|]; [| |done].
  - by eapply deliver_keeps_image.
  - by eapply deliver_keeps_annotation.
Qed.

(** After the walk every file is where its route sends it. *)
Lemma walk_delivers l W W' :
  for_each l visit W = OK W' → Forall (delivered W') l.
Proof.
  revert W. induction l as [|e l IH]; intros W; cbn [for_each bind]; [done|].
  destruct (visit e W) as [W1|] eqn:Hv; cbn [bind]; [|done].
  intros Hl. constructor; [|by eapply IH].
  assert (Hnow : delivered W1 e).
  { apply visit_delivers in Hv as [_ Hd]. unfold delivered.
    destruct (route_or_unclassified e) as [|folder format|]; [| |done].
    - apply deliver_puts_image in Hd. by rewrite Hd.
    - by apply deliver_puts_annotation in Hd. }
  clear Hv IH. revert W1 Hl Hnow.
  induction l as [|e' l IH]; intros W1; cbn [for_each bind].
  - by intros [= <-].
  - destruct (visit e' W1) as [W2|] eqn:Hv; cbn [bind]; [|done].
    intros Hl Hnow. apply (IH W2 Hl).
    by apply (delivered_kept e' e W1).
Qed.

End each_file.

(** C7.  The walk visits the files of the scratch area one by one,
    each under its one path; a visit sends the file to the images
    folder, to one of the three annotation folders, or nowhere; the
    two counters count the files sent to the images folder and to the
    annotation folders, each file once, and the files sent nowhere are
    the files the scratch area still holds. *)
Theorem C7_each_file_once {lib : Library} (self : AnnotationExplorer)
    (fs : filesystem) (d : dir) (w : workspace) :
  scratch fs = Some d → wf d → workspaces fs !! base_dir self = Some w →
  let files := listing d in
  let route := route_or_unclassified in
  NoDup files.*1
  ∧ organize_files_and_identify_format (self, fs)
    = (W' <- for_each files visit
               (self, <[base_dir self := with_annotations w]> (workspaces fs));;
       OK (W'.1, Filesystem (archives fs) (Some (residual stays d)) W'.2))
  ∧ ∀ self' fs',
      organize_files_and_identify_format (self, fs) = OK (self', fs') →
      Forall (λ e, sniff e.1.2 e.2 = OK (route e)
                   ∧ route e ∈ [Image; Annotation "xml" "Pascal VOC";
                                Annotation "yolo" "YOLO";
                                Annotation "coco" "COCO"; Unclassified]) files
      ∧ num_images self'
        = num_images self + length (filter (λ e, to_images (route e)) files)
      ∧ num_annotations self'
        = num_annotations self
          + length (filter (λ e, to_annotations (route e)) files)
      ∧ (∃ d', scratch fs' = Some d'
               ∧ listing d' = filter (λ e, negb (moved (route e))) files)
      ∧ Forall (delivered (self', workspaces fs')) files.
Proof.
  intros Hs Hwf Hw files route. split_and!.
  - by apply listing_NoDup.
  - by apply organize_walk.
  - intros self' fs' Ho.
    destruct (organize_OK _ _ _ _ _ _ Hs Hwf Hw Ho) as (ws' & Hwalk & ->).
    pose proof (walk_object _ _ _ Hwalk) as (_ & Hi & Ha & _ & Hall).
    cbn [fst snd scratch workspaces] in *. split_and!.
    + apply Forall_forall. intros e He.
      rewrite Forall_forall in Hall. destruct (Hall e He) as [r Hr].
      unfold route, route_or_unclassified. rewrite Hr.
      split; [done|]. by apply (sniff_routes e.1.2 e.2).
    + by rewrite Hi, images_by_route.
    + by rewrite Ha, annotations_by_route.
    + eexists. split; [done|]. rewrite listing_residual.
      apply list_filter_iff. intros e. by rewrite stays_route.
    + by apply walk_delivers in Hwalk.
Qed.

Lemma C7_each_file_once_witness :
  num_images Sample.organized.1
  = num_images Sample.extracted.1
    + length (filter (λ e, to_images (route_or_unclassified (lib := Sample.library) e))
                (listing Sample.tree))
  ∧ Forall (delivered (lib := Sample.library)
              (Sample.organized.1, workspaces Sample.organized.2))
      (listing Sample.tree).
Proof.
  destruct (proj2 (proj2 (C7_each_file_once (lib := Sample.library)
    Sample.extracted.1 Sample.extracted.2 Sample.tree Sample.fresh_workspace
    sample_scratch sample_tree_wf sample_workspace))
    Sample.organized.1 Sample.organized.2 sample_organize)
    as (_ & Hi & _ & _ & Hd).
  split; [exact Hi|exact Hd].
Defined.

(** ** The lines of a YOLO file *)
















(** ** Well-formed trees through a run *)

Section assoc_names.
Context {A : Type}.
Implicit Types (l : list (string * A)) (n : string).

Lemma assoc_None n l : assoc n l = None ↔ n ∉ l.*1.
Proof.
  induction l as [|[m a] l IH]; simpl.
  - split; [intros _; apply not_elem_of_nil|done].
  - rewrite not_elem_of_cons. destruct (decide (m = n)) as [->|Hne].
    + split; [done|]. by intros [? _].
    + rewrite IH. split; [intros ?; split; [congruence|done]|by intros [_ ?]].
Qed.

Lemma assoc_set_names_present n a b l :
  assoc n l = Some b → (assoc_set n a l).*1 = l.*1.
Proof.
  induction l as [|[m c] l IH]; cbn [assoc assoc_set]; [done|].
  destruct (decide (m = n)) as [->|Hne]; [done|].
  intros H. rewrite !fmap_cons. by rewrite IH.
Qed.

Lemma assoc_set_names_absent n a l :
  assoc n l = None → (assoc_set n a l).*1 = l.*1 ++ [n].
Proof.
  induction l as [|[m c] l IH]; cbn [assoc assoc_set]; [done|].
  destruct (decide (m = n)) as [->|Hne]; [done|].
  intros H. rewrite !fmap_cons. by rewrite IH.
Qed.

Lemma assoc_set_Forall (P : A → Prop) n a l :
  P a → Forall (λ e, P e.2) l → Forall (λ e, P e.2) (assoc_set n a l).
Proof.
  intros Ha. induction 1 as [|[m c] l Hc Hl IH]; simpl.
  - by repeat constructor.
  - destruct (decide (m = n)); by constructor.
Qed.

Lemma assoc_Forall (P : A → Prop) n a l :
  assoc n l = Some a → Forall (λ e, P e.2) l → P a.
Proof.
  intros Hn Hl. apply assoc_Some_elem in Hn.
  rewrite Forall_forall in Hl. by apply Hl in Hn.
Qed.

End assoc_names.

Lemma wf_Dir_iff fs ds :
  wf (Dir fs ds) ↔ NoDup (fs.*1 ++ ds.*1) ∧ Forall (λ e, wf e.2) ds.
Proof.
  split.
  - by inversion 1.
  - intros [? ?]. by constructor.
Qed.

Lemma wf_empty : wf (Dir [] []).
Proof. constructor; constructor. Qed.

Lemma dir_update_wf p f d d' :
  (∀ x x', wf x → f x = OK x' → wf x') →
  wf d → dir_update p f d = OK d' → wf d'.
Proof.
  intros Hf. revert d d'. induction p as [|n p IH]; intros [fs ds] d'; simpl.
  - apply Hf.
  - destruct (assoc n ds) as [sub|] eqn:Hn; [|done].
    destruct (dir_update p f sub) as [sub'|] eqn:Hu; cbn [bind]; [|done].
    intros [Hnd Hall]%wf_Dir_iff [= <-]. apply wf_Dir_iff. split.
    + by rewrite (assoc_set_names_present _ _ _ _ Hn).
    + apply (assoc_set_Forall wf); [|done].
      apply (IH sub); [|done]. by apply (assoc_Forall wf n sub ds).
Qed.

Lemma write_here_wf name data d d' :
  wf d → write_here name data d = OK d' → wf d'.
Proof.
  destruct d as [fs ds]. unfold write_here. simpl.
  destruct (assoc name ds) eqn:Hn; [done|].
  intros [Hnd Hall]%wf_Dir_iff [= <-]. apply wf_Dir_iff. split; [|done].
  destruct (assoc name fs) as [c|] eqn:Hf.
  - by rewrite (assoc_set_names_present _ _ _ _ Hf).
  - rewrite (assoc_set_names_absent _ _ _ Hf).
    apply assoc_None in Hn, Hf.
    apply NoDup_app in Hnd as (H1 & H2 & H3).
    rewrite <- app_assoc. apply NoDup_app. split_and!; [done| |].
    + intros x Hx [->%list_elem_of_singleton|Hx']%elem_of_app; [done|].
      by apply (H2 x).
    + simpl. by apply NoDup_cons.
Qed.

Lemma makedirs_wf p d d' : wf d → makedirs p d = OK d' → wf d'.
Proof.
  revert d d'. induction p as [|n p IH]; intros [fs ds] d'; simpl.
  - by intros ? [= <-].
  - destruct (assoc n ds) as [sub|] eqn:Hn.
    + destruct (makedirs p sub) as [sub'|] eqn:Hm; cbn [bind]; [|done].
      intros [Hnd Hall]%wf_Dir_iff [= <-]. apply wf_Dir_iff. split.
      * by rewrite (assoc_set_names_present _ _ _ _ Hn).
      * apply (assoc_set_Forall wf); [|done].
        apply (IH sub); [|done]. by apply (assoc_Forall wf n sub ds).
    + destruct (assoc n fs) eqn:Hf; [done|].
      destruct (makedirs p (Dir [] [])) as [sub'|] eqn:Hm; cbn [bind]; [|done].
      intros [Hnd Hall]%wf_Dir_iff [= <-]. apply wf_Dir_iff. split.
      * rewrite fmap_app. simpl. apply assoc_None in Hn, Hf.
        rewrite app_assoc. apply NoDup_app. split_and!; [done| |apply NoDup_singleton].
        intros x Hx ->%list_elem_of_singleton.
        apply elem_of_app in Hx as [?|?]; done.
      * apply Forall_app. split; [done|]. constructor; [|done]. simpl.
        apply (IH (Dir [] [])); [apply wf_empty|done].
Qed.

Lemma extract_member_wf m d d' : wf d → extract_member m d = OK d' → wf d'.
Proof.
  destruct m as [parent name data|p]; simpl.
  - destruct (makedirs parent d) as [d1|] eqn:Hm; cbn [bind]; [|done].
    intros Hwf Hu. apply (dir_update_wf _ _ _ _ (write_here_wf name data)) in Hu; [done|].
    by apply (makedirs_wf parent d).
  - apply makedirs_wf.
Qed.

Lemma extract_zip_wf self fs fs' :
  wf_scratch (scratch fs) → extract_zip self fs = OK fs' →
  ∃ d, scratch fs' = Some d ∧ wf d.
Proof.
  unfold extract_zip. intros Hwf.
  destruct (archives fs !! zip_path self) as [members|]; [|done].
  assert (Htop : wf (default (Dir [] []) (scratch fs))).
  { destruct (scratch fs); [done|apply wf_empty]. }
  revert Htop. generalize (default (Dir [] []) (scratch fs)). clear Hwf.
  induction members as [|m members IH]; intros top Htop; cbn [for_each bind].
  - intros [= <-]. eauto.
  - destruct (extract_member m top) as [d1|] eqn:Hm; cbn [bind]; [|done].
    apply IH. by apply (extract_member_wf m top).
Qed.

Lemma residual_wf keep d : wf d → wf (residual keep d).
Proof.
  induction d as [fs ds IH] using dir_ind'.
  intros [Hnd Hall]%wf_Dir_iff. rewrite residual_Dir. apply wf_Dir_iff. split.
  - rewrite <- list_fmap_compose.
    apply (sublist_NoDup _ (fs.*1 ++ ds.*1)); [done|].
    apply sublist_app; [|done].
    apply fmap_sublist, sublist_filter.
  - apply Forall_fmap. simpl.
    rewrite Forall_forall in IH, Hall. apply Forall_forall.
    intros x Hx. simpl. auto.
Qed.

(** After the walk, [cleanup] cannot fail. *)
Lemma run_completes {lib : Library} self fs fs1 st2 :
  wf_scratch (scratch fs) →
  extract_zip self fs = OK fs1 →
  organize_files_and_identify_format (self, fs1) = OK st2 →
  explore_and_organize (self, fs)
  = OK (Summary (Py.basename (zip_path st2.1)) (identified_format st2.1)
          (num_images st2.1) (num_annotations st2.1),
        (st2.1, set_scratch None st2.2)).
Proof.
  intros Hwf He Ho. unfold explore_and_organize. rewrite He. cbn [bind].
  rewrite Ho. cbn [bind].
  destruct (extract_zip_wf _ _ _ Hwf He) as (d1 & Hs1 & Hwf1).
  destruct (workspaces fs1 !! base_dir self) as [w|] eqn:Hw.
  - destruct st2 as [self2 fs2].
    destruct (organize_OK _ _ _ _ _ _ Hs1 Hwf1 Hw Ho) as (ws' & _ & ->).
    rewrite (cleanup_wf self2 _ (residual stays d1)); [done|done|].
    by apply residual_wf.
  - unfold organize_files_and_identify_format, make_annotations_dir in Ho.
    by rewrite Hw in Ho.
Qed.

Lemma sample_explore :
  explore_and_organize (lib := Sample.library)
    (__init__ Sample.zip_path Sample.disk)
  = OK (Sample.explored.1, Sample.explored.2).
Proof. vm_compute. reflexivity. Qed.

(** C8.  A run of [explore_and_organize] that returns leaves no
    scratch area, and a run returns as soon as the extraction and the
    walk do; [cleanup] empties a scratch area bottom-up and removes
    it, without an error, and does nothing when there is none. *)
Theorem C8_cleanup_removes_scratch {lib : Library} :
  (∀ st r st', explore_and_organize st = OK (r, st') → scratch st'.2 = None)
  ∧ (∀ self fs fs1 st2,
       wf_scratch (scratch fs) →
       extract_zip self fs = OK fs1 →
       organize_files_and_identify_format (self, fs1) = OK st2 →
       ∃ r, explore_and_organize (self, fs)
            = OK (r, (st2.1, set_scratch None st2.2)))
  ∧ (∀ self fs d,
       scratch fs = Some d → wf d →
       cleanup (self, fs) = OK (self, set_scratch None fs))
  ∧ (∀ self fs, scratch fs = None → cleanup (self, fs) = OK (self, fs)).
Proof.
  split_and!.
  - intros [self fs] r st'. unfold explore_and_organize.
    destruct (extract_zip self fs) as [fs1|]; cbn [bind]; [|done].
    destruct (organize_files_and_identify_format (self, fs1)) as [st2|];
      cbn [bind]; [|done].
    destruct (cleanup st2) as [st3|] eqn:Hc; cbn [bind]; [|done].
    intros [= _ <-]. by apply cleanup_removes in Hc.
  - intros self fs fs1 st2 Hwf He Ho. eexists. by apply (run_completes _ _ fs1).
  - apply cleanup_wf.
  - apply cleanup_absent.
Qed.

Lemma C8_cleanup_removes_scratch_witness :
  scratch Sample.explored.2.2 = None
  ∧ cleanup (Sample.extracted.1, Sample.extracted.2)
    = OK (Sample.extracted.1, set_scratch None Sample.extracted.2).
Proof.
  split.
  - exact (proj1 (C8_cleanup_removes_scratch (lib := Sample.library))
             (__init__ Sample.zip_path Sample.disk)
             Sample.explored.1 Sample.explored.2 sample_explore).
  - exact (proj1 (proj2 (proj2 (C8_cleanup_removes_scratch (lib := Sample.library))))
             Sample.extracted.1 Sample.extracted.2 Sample.tree
             sample_scratch sample_tree_wf).
Defined.

(** ** The constructor *)

(** X1.  [__init__] writes the two seed documents [val_coco.json] and
    [test_coco.json] over whatever the workspace holds under these
    names, and changes nothing else: the other documents of [cocos/]
    (no [train_coco.json] is made), the two image folders, the
    annotation folders, the other workspaces, the archives and the
    scratch area are as before. *)
Theorem X1_init_seeds_workspace (zip_path : string) (fs : filesystem) :
  let self := (__init__ zip_path fs).1 in
  let fs' := (__init__ zip_path fs).2 in
  let old := default (Workspace ∅ ∅ ∅ None) (workspaces fs !! base_dir self) in
  archives fs' = archives fs
  ∧ scratch fs' = scratch fs
  ∧ (∀ k, k ≠ base_dir self → workspaces fs' !! k = workspaces fs !! k)
  ∧ ∃ w, workspaces fs' !! base_dir self = Some w
         ∧ train_images w = train_images old
         ∧ validation_images w = validation_images old
         ∧ annotations w = annotations old
         ∧ cocos w !! "val_coco.json" = Some (Text default_coco_text)
         ∧ cocos w !! "test_coco.json" = Some (Text default_coco_text)
         ∧ ∀ name, name ≠ "val_coco.json" → name ≠ "test_coco.json" →
                   cocos w !! name = cocos old !! name.
Proof.
  unfold __init__, _create_folder_structure, set_workspace. cbn.
  split_and!; [done|done| |].
  - intros k Hk. by rewrite lookup_insert_ne.
  - eexists. split; [apply lookup_insert_eq|]. cbn.
    split_and!; [done|done|done| | |].
    + rewrite lookup_insert_ne by done. apply lookup_insert_eq.
    + apply lookup_insert_eq.
    + intros name H1 H2. by rewrite !lookup_insert_ne.
Qed.

(** X2.  [__init__] is idempotent on the disk: a second construction
    for the same archive path leaves the disk of the first and builds
    the same object. *)
Theorem X2_init_idempotent (zip_path : string) (fs : filesystem) :
  __init__ zip_path (__init__ zip_path fs).2 = __init__ zip_path fs.
Proof.
  unfold __init__, _create_folder_structure, set_workspace. cbn. f_equal.
  destruct fs as [a s ws]. cbn. f_equal.
  rewrite lookup_insert_eq. cbn. rewrite insert_insert_eq. f_equal. f_equal.
  apply map_eq. intros name.
  destruct (decide (name = "test_coco.json")) as [->|H1].
  { by rewrite !lookup_insert_eq. }
  rewrite !(lookup_insert_ne _ "test_coco.json") by done.
  destruct (decide (name = "val_coco.json")) as [->|H2].
  { by rewrite !lookup_insert_eq. }
  rewrite !(lookup_insert_ne _ "val_coco.json") by done.
  rewrite lookup_insert_ne by done. by rewrite lookup_insert_ne.
Qed.

(** X3.  [__init__] does not look at the archive: with no archive at
    [zip_path] the workspace is made all the same, and it is
    [explore_and_organize] that raises [FileNotFoundError]. *)
Theorem X3_missing_archive {lib : Library} (zip_path : string) (fs : filesystem) :
  archives fs !! zip_path = None →
  explore_and_organize (__init__ zip_path fs) = Raise FileNotFoundError
  ∧ base_dir (__init__ zip_path fs).1 ∈ dom (workspaces (__init__ zip_path fs).2).
Proof.
  intros Ha. split.
  - unfold __init__, _create_folder_structure, explore_and_organize, extract_zip.
    cbn. by rewrite Ha.
  - unfold __init__, _create_folder_structure, set_workspace. cbn.
    rewrite dom_insert_L. apply elem_of_union_l. by apply elem_of_singleton.
Qed.

Lemma X3_missing_archive_witness :
  explore_and_organize (lib := Sample.library)
    (__init__ "absent.zip" Sample.disk) = Raise FileNotFoundError.
Proof.
  refine (proj1 (X3_missing_archive (lib := Sample.library)
                   "absent.zip" Sample.disk _)).
  vm_compute. reflexivity.
Defined.

(** ** The tests of [classify] *)

(** X4.  The four name tests of [classify] exclude one another: a
    name passes one of them at most, so no file depends on the order
    of the [elif] chain. *)
Theorem X4_extension_tests_exclusive (file : string) :
  (is_image file = true →
     Py.endswith file ".xml" = false ∧ Py.endswith file ".txt" = false
     ∧ Py.endswith file ".json" = false)
  ∧ (Py.endswith file ".xml" = true →
     Py.endswith file ".txt" = false ∧ Py.endswith file ".json" = false)
  ∧ (Py.endswith file ".txt" = true → Py.endswith file ".json" = false).
Proof.
  split_and!.
  - intros Hi. split_and!.
    + destruct (Py.endswith file ".xml") eqn:E; [|done].
      apply xml_not_image in E. unfold is_image in Hi. congruence.
    + destruct (Py.endswith file ".txt") eqn:E; [|done].
      apply txt_not_image in E. congruence.
    + destruct (Py.endswith file ".json") eqn:E; [|done].
      apply json_not_image in E. congruence.
  - intros Hx. split.
    + destruct (Py.endswith file ".txt") eqn:E; [|done].
      apply txt_not_xml in E. congruence.
    + destruct (Py.endswith file ".json") eqn:E; [|done].
      apply json_not_xml in E. congruence.
  - intros Ht. destruct (Py.endswith file ".json") eqn:E; [|done].
    apply json_not_txt in E. congruence.
Qed.

Lemma X4_extension_tests_exclusive_witness :
  Py.endswith "a.xml.JPG" ".xml" = false.
Proof.
  refine (proj1 (proj1 (X4_extension_tests_exclusive "a.xml.JPG") _)).
  vm_compute. reflexivity.
Defined.

(** ** The sniffers *)

(** X5.  [_is_yolo] never raises: its [except Exception] turns a
    missing file and a file that is not text into [False]. *)
Theorem X5_yolo_never_raises (p : path) (fs : filesystem) :
  (∃ b, _is_yolo p fs = OK b)
  ∧ (read p fs = Raise FileNotFoundError → _is_yolo p fs = OK false)
  ∧ (∀ bytes, read p fs = OK (Binary bytes) → _is_yolo p fs = OK false).
Proof.
  unfold _is_yolo. split_and!.
  - destruct (read p fs) as [[|]|]; cbn; eauto.
  - by intros ->.
  - by intros bytes ->.
Qed.

Lemma X5_yolo_never_raises_witness :
  _is_yolo ([], "gone.txt") Sample.extracted.2 = OK false.
Proof.
  refine (proj1 (proj2 (X5_yolo_never_raises ([], "gone.txt") Sample.extracted.2)) _).
  vm_compute. reflexivity.
Defined.

Lemma contains_true s sub :
  Py.contains s sub = true ↔ ∃ before after, s = before ++ sub ++ after.
Proof.
  induction s as [|c s IH]; cbn [Py.contains];
    rewrite orb_true_iff, bool_decide_eq_true.
  - split.
    + intros [[k Hk]|?]; [|done]. exists [], k. done.
    + intros (before & after & H). left.
      destruct before; [|done]. by exists after.
  - rewrite IH. split.
    + intros [[k Hk]|(before & after & ->)].
      * exists [], k. done.
      * exists (c :: before), after. done.
    + intros ([|c' before] & after & H).
      * left. by exists after.
      * right. injection H as -> ->. eauto.
Qed.

Lemma py_in_array key items :
  py_in key (JArray items) = OK true ↔ JString key ∈ items.
Proof.
  cbn. split.
  - intros [= (v & Hin%list_elem_of_In & Hv)%existsb_exists].
    destruct v; try done. apply bool_decide_eq_true in Hv. by subst.
  - intros Hin. f_equal. apply existsb_exists. exists (JString key).
    split; [by apply list_elem_of_In|]. by apply bool_decide_eq_true.
Qed.

Lemma coco_three {lib : Library} p fs text data :
  read p fs = OK (Text text) → json_loads text = Some data →
  is_container data = true →
  _is_coco p fs = OK true
  ↔ py_in "annotations" data = OK true ∧ py_in "images" data = OK true
    ∧ py_in "categories" data = OK true.
Proof.
  intros Hr Hl Hc. unfold _is_coco. rewrite Hr. cbn [bind coco_body]. rewrite Hl.
  assert (∀ key, ∃ b, py_in key data = OK b) as Hb.
  { intros key. destruct data; try done; cbn; eauto. }
  destruct (Hb "annotations") as [[] ->], (Hb "images") as [[] ->],
    (Hb "categories") as [[] ->]; cbn; split; try done;
    intros (? & ? & ?); done.
Qed.

(** X6.  [_is_coco] tests membership, not the shape of the document:
    it accepts an object that has the three keys, whatever their
    values, and also an array that holds the three strings and a
    string that contains the three words; a text that does not parse
    is a negative match. *)
Theorem X6_coco_accepts {lib : Library} (p : path) (fs : filesystem)
    (text : string) :
  read p fs = OK (Text text) →
  (json_loads text = None → _is_coco p fs = OK false)
  ∧ (∀ members, json_loads text = Some (JObject members) →
       _is_coco p fs = OK true
       ↔ "annotations" ∈ members.*1 ∧ "images" ∈ members.*1
         ∧ "categories" ∈ members.*1)
  ∧ (∀ items, json_loads text = Some (JArray items) →
       _is_coco p fs = OK true
       ↔ JString "annotations" ∈ items ∧ JString "images" ∈ items
         ∧ JString "categories" ∈ items)
  ∧ (∀ s, json_loads text = Some (JString s) →
       _is_coco p fs = OK true
       ↔ ∀ word, word ∈ ["annotations"; "images"; "categories"] →
                 ∃ before after, Py.chars s = before ++ Py.chars word ++ after).
Proof.
  intros Hr. split_and!.
  - intros Hl. unfold _is_coco. rewrite Hr. cbn [bind coco_body]. by rewrite Hl.
  - intros members Hl. rewrite (coco_three _ _ _ _ Hr Hl eq_refl). cbn.
    split.
    + intros ([= ?%bool_decide_eq_true] & [= ?%bool_decide_eq_true]
              & [= ?%bool_decide_eq_true]). done.
    + intros (? & ? & ?). by rewrite !bool_decide_eq_true_2.
  - intros items Hl. rewrite (coco_three _ _ _ _ Hr Hl eq_refl).
    by rewrite !py_in_array.
  - intros s Hl. rewrite (coco_three _ _ _ _ Hr Hl eq_refl). cbn.
    split.
    + intros ([= H1%contains_true] & [= H2%contains_true] & [= H3%contains_true]).
      intros word Hw. set_unfold in Hw. by destruct Hw as [->|[->|[->|[]]]].
    + intros H. split_and!; f_equal; apply contains_true.
      * apply (H "annotations"). set_solver.
      * apply (H "images"). set_solver.
      * apply (H "categories"). set_solver.
Qed.

Lemma X6_coco_accepts_witness :
  _is_coco (lib := Sample.library) ([], "data.json")
    (Sample.one_file "data.json" (Text Sample.coco_text)).2 = OK true.
Proof.
  refine (proj2 (proj1 (proj2 (X6_coco_accepts (lib := Sample.library)
    ([], "data.json") (Sample.one_file "data.json" (Text Sample.coco_text)).2
    Sample.coco_text _))
    [("images", JArray []); ("annotations", JArray []); ("categories", JArray [])]
    _) _).
  - vm_compute. reflexivity.
  - vm_compute. reflexivity.
  - split_and!; apply (bool_decide_unpack _); vm_compute; exact I.
Defined.

(** ** The annotation folders during the walk *)

Section folders.
Context {lib : Library}.

(** What one delivery does to an annotation folder. *)
Lemma deliver_folder r file c W W' folder :
  deliver r file c W = OK W' →
  if goes_to folder r
  then annotation_folder W folder !! file = None
       ∧ annotation_folder W' folder = <[file := c]> (annotation_folder W folder)
  else annotation_folder W' folder = annotation_folder W folder.
Proof.
  unfold annotation_folder.
  destruct r as [|f format|]; simpl.
  - destruct (W.2 !! base_dir W.1) as [w|]; [|done]. intros [= <-]. simpl.
    by rewrite lookup_insert_eq.
  - destruct (W.2 !! base_dir W.1) as [w|]; [|done]. simpl.
    destruct (default ∅ (default ∅ (annotations w) !! f) !! file) eqn:Hd;
      [intros [=]|].
    intros [= <-]. simpl. rewrite lookup_insert_eq. simpl.
    case_bool_decide as Hf.
    + subst f. rewrite lookup_insert_eq. simpl.
      destruct (annotations w) as [ann|]; simpl in *; [|done].
      by destruct (ann !! folder).
    + rewrite lookup_insert_ne by done. by destruct (annotations w).
  - by intros [= <-].
Qed.

Lemma visit_folder e W W' folder :
  visit e W = OK W' →
  if goes_to folder (route_or_unclassified e)
  then annotation_folder W folder !! e.1.2 = None
       ∧ annotation_folder W' folder = <[e.1.2 := e.2]> (annotation_folder W folder)
  else annotation_folder W' folder = annotation_folder W folder.
Proof. intros [_ Hd]%visit_delivers. by apply deliver_folder. Qed.

Lemma routed_to_cons folder e l :
  routed_to folder (e :: l)
  = if goes_to folder (route_or_unclassified e)
    then e :: routed_to folder l else routed_to folder l.
Proof.
  unfold routed_to. rewrite filter_cons.
  destruct (goes_to folder (route_or_unclassified e)).
  - by rewrite decide_True.
  - by rewrite decide_False by (intros []).
Qed.

(** The annotation folders after the walk over a list of files:
    nothing is lost, and a folder grows by the files sent to it. *)
Lemma walk_folder l W W' folder :
  for_each l visit W = OK W' →
  size (annotation_folder W' folder)
  = size (annotation_folder W folder) + length (routed_to folder l)
  ∧ ∀ name c, annotation_folder W folder !! name = Some c →
              annotation_folder W' folder !! name = Some c.
Proof.
  revert W. induction l as [|e l IH]; intros W; cbn [for_each bind].
  { intros [= <-]. simpl. split; [lia|done]. }
  destruct (visit e W) as [W1|] eqn:Hv; cbn [bind]; [|done].
  intros [Hsize Hkeep]%IH. rewrite routed_to_cons.
  apply (visit_folder _ _ _ folder) in Hv.
  destruct (goes_to folder (route_or_unclassified e)).
  - destruct Hv as [Hnew Hins]. rewrite Hins in Hsize, Hkeep. split.
    + rewrite Hsize, map_size_insert_None by done. simpl. lia.
    + intros name c Hn. apply Hkeep. rewrite lookup_insert_ne; [done|].
      intros <-. congruence.
  - rewrite Hv in Hsize, Hkeep. done.
Qed.

(** Two files sent to one folder under one name end the walk. *)
Lemma walk_collision earlier e1 between e2 later W folder :
  goes_to folder (route_or_unclassified e1) = true →
  goes_to folder (route_or_unclassified e2) = true →
  e1.1.2 = e2.1.2 →
  ∀ W', for_each (earlier ++ e1 :: between ++ e2 :: later) visit W ≠ OK W'.
Proof.
  intros H1 H2 Hname W'. rewrite for_each_app. cbn [for_each].
  destruct (for_each earlier visit W) as [W0|]; cbn [bind]; [|done].
  destruct (visit e1 W0) as [W1|] eqn:Hv1; cbn [bind]; [|done].
  rewrite for_each_app. cbn [for_each].
  destruct (for_each between visit W1) as [W2|] eqn:Hb; cbn [bind]; [|done].
  destruct (visit e2 W2) as [W3|] eqn:Hv2; cbn [bind]; [|done].
  apply (visit_folder _ _ _ folder) in Hv1, Hv2. rewrite H1 in Hv1. rewrite H2 in Hv2.
  destruct Hv1 as [_ Hins], Hv2 as [Hnew _].
  apply (walk_folder _ _ _ folder) in Hb as [_ Hkeep].
  specialize (Hkeep e1.1.2 e1.2). rewrite Hins, lookup_insert_eq in Hkeep.
  specialize (Hkeep eq_refl). rewrite Hname in Hkeep. congruence.
Qed.

End folders.

(** X7.  An annotation folder never loses or replaces a file during
    the walk: after a walk that returns, each of its files is still
    there with its content, and the folder has grown by exactly the
    number of files the walk sent to it. *)
Theorem X7_annotation_folders_grow {lib : Library}
    (self self' : AnnotationExplorer) (fs fs' : filesystem) (d : dir)
    (w : workspace) (folder : string) :
  scratch fs = Some d → wf d → workspaces fs !! base_dir self = Some w →
  organize_files_and_identify_format (self, fs) = OK (self', fs') →
  let before := annotation_folder (self, workspaces fs) folder in
  let after := annotation_folder (self', workspaces fs') folder in
  size after = size before + length (routed_to folder (listing d))
  ∧ (∀ name c, before !! name = Some c → after !! name = Some c)
  ∧ (∀ e, e ∈ routed_to folder (listing d) → after !! e.1.2 = Some e.2).
Proof.
  intros Hs Hwf Hw Ho. cbv zeta.
  set (before := annotation_folder (self, workspaces fs) folder).
  destruct (organize_OK _ _ _ _ _ _ Hs Hwf Hw Ho) as (ws' & Hwalk & ->).
  pose proof (walk_folder _ _ _ folder Hwalk) as [Hsize Hkeep].
  pose proof (walk_object _ _ _ Hwalk) as (Hb & _).
  pose proof (walk_delivers _ _ _ Hwalk) as Hd.
  assert (Hsame : annotation_folder
                    (self, <[base_dir self := with_annotations w]> (workspaces fs))
                    folder = before).
  { unfold before, annotation_folder. cbn [fst snd].
    rewrite lookup_insert_eq, Hw. cbn. by destruct (annotations w). }
  rewrite Hsame in Hsize, Hkeep. cbn [workspaces]. split_and!; [done|done|].
  intros e [Hgo He]%list_elem_of_filter.
  rewrite Forall_forall in Hd. specialize (Hd e He). unfold delivered in Hd.
  destruct (route_or_unclassified e) as [|f format|]; try done.
  cbn in Hgo. apply bool_decide_unpack in Hgo. subst f.
  unfold annotation_folder. unfold annotation_file in Hd.
  cbn [fst snd] in *.
  destruct (ws' !! base_dir self') as [w'|]; [|done]. cbn in *.
  destruct (annotations w') as [ann|]; [|done]. cbn in *.
  by destruct (ann !! folder).
Qed.

Lemma X7_annotation_folders_grow_witness :
  size (annotation_folder (Sample.organized.1, workspaces Sample.organized.2) "yolo")
  = size (annotation_folder (Sample.extracted.1, workspaces Sample.extracted.2) "yolo")
    + length (routed_to (lib := Sample.library) "yolo" (listing Sample.tree)).
Proof.
  exact (proj1 (X7_annotation_folders_grow (lib := Sample.library)
    Sample.extracted.1 Sample.organized.1 Sample.extracted.2 Sample.organized.2
    Sample.tree Sample.fresh_workspace "yolo"
    sample_scratch sample_tree_wf sample_workspace sample_organize)).
Defined.

(** X8.  [shutil.move] into a folder refuses a name that is there:
    when two files of the scratch area are sent to the same annotation
    folder under the same name, the walk does not return. *)
Theorem X8_annotation_collision_aborts {lib : Library}
    (self : AnnotationExplorer) (fs : filesystem) (d : dir) (w : workspace)
    (folder : string) (earlier between later : list entry) (e1 e2 : entry) :
  scratch fs = Some d → wf d → workspaces fs !! base_dir self = Some w →
  listing d = earlier ++ e1 :: between ++ e2 :: later →
  goes_to folder (route_or_unclassified e1) = true →
  goes_to folder (route_or_unclassified e2) = true →
  e1.1.2 = e2.1.2 →
  ∃ e, organize_files_and_identify_format (self, fs) = Raise e.
Proof.
  intros Hs Hwf Hw Hl H1 H2 Hname.
  rewrite (organize_walk _ _ _ _ Hs Hwf Hw), Hl.
  destruct (for_each _ visit _) as [W'|e] eqn:Hwalk; cbn [bind]; [|eauto].
  by apply (walk_collision _ _ _ _ _ _ folder H1 H2 Hname) in Hwalk.
Qed.

Lemma X8_annotation_collision_aborts_witness :
  ∃ e, organize_files_and_identify_format (lib := Sample.library)
         (Sample.clash.1, Sample.clash.2) = Raise e.
Proof.
  refine (X8_annotation_collision_aborts (lib := Sample.library)
    Sample.clash.1 Sample.clash.2 Sample.clash_tree Sample.fresh_workspace "yolo"
    [] [] [] ([], "a.txt", Text "0 0 0 0 0") (["sub"], "a.txt", Text "1 1 1 1 1")
    _ _ _ _ _ _ _).
  - vm_compute. reflexivity.
  - repeat constructor; apply (bool_decide_unpack _); vm_compute; exact I.
  - vm_compute. reflexivity.
  - vm_compute. reflexivity.
  - vm_compute. reflexivity.
  - vm_compute. reflexivity.
  - reflexivity.
Defined.

(** ** What the walk leaves alone *)

Lemma walk_residual_dirs keep d :
  (walk (residual keep d)).*1 = (walk d).*1.
Proof.
  induction d as [fs ds IH] using dir_ind'.
  rewrite residual_Dir, !walk_Dir, !fmap_cons. cbn [fst]. f_equal.
  - f_equal. by rewrite <- list_fmap_compose.
  - induction IH as [|[n sub] ds Hsub _ IHds]; [done|].
    cbn [fmap list_fmap mbind list_bind fst snd] in *.
    rewrite !fmap_app, IHds. f_equal.
    rewrite <- !list_fmap_compose.
    assert (∀ l : list walk_entry, (fst ∘ under n) <$> l = (λ p, (n :: p.1, p.2)) <$> l.*1)
      as Hu.
    { intros l. rewrite <- list_fmap_compose. apply list_fmap_ext.
      by intros ? [[root dirs] names] _. }
    by rewrite !Hu, Hsub.
Qed.

Section frame.
Context {lib : Library}.

Lemma deliver_attributes r file c W W' :
  deliver r file c W = OK W' →
  zip_path W'.1 = zip_path W.1 ∧ train_images_dir W'.1 = train_images_dir W.1
  ∧ cocos_dir W'.1 = cocos_dir W.1 ∧ extract_dir W'.1 = extract_dir W.1.
Proof.
  destruct r as [|folder format|]; simpl.
  - destruct (W.2 !! base_dir W.1); [|done]. by intros [= <-].
  - destruct (W.2 !! base_dir W.1) as [w|]; [|done].
    destruct (default ∅ (default ∅ (annotations w) !! folder) !! file);
      [intros [=]|].
    by intros [= <-].
  - by intros [= <-].
Qed.

Lemma walk_attributes l W W' :
  for_each l visit W = OK W' →
  zip_path W'.1 = zip_path W.1 ∧ train_images_dir W'.1 = train_images_dir W.1
  ∧ cocos_dir W'.1 = cocos_dir W.1 ∧ extract_dir W'.1 = extract_dir W.1.
Proof.
  revert W. induction l as [|e l IH]; intros W; cbn [for_each bind].
  { by intros [= <-]. }
  destruct (visit e W) as [W1|] eqn:Hv; cbn [bind]; [|done].
  intros (H1 & H2 & H3 & H4)%IH.
  apply visit_delivers in Hv as [_ (G1 & G2 & G3 & G4)%deliver_attributes].
  split_and!; congruence.
Qed.

End frame.

(** X9.  The walk works on the scratch area, on the images folder and
    on the annotation folders of its own workspace, and on the three
    result attributes of the object, and on nothing else: the
    archives, the other workspaces, [validation_images/] and [cocos/]
    are as before, so are the five path attributes, and every
    directory of the scratch area is still there. *)
Theorem X9_walk_frame {lib : Library} (self self' : AnnotationExplorer)
    (fs fs' : filesystem) (d : dir) (w : workspace) :
  scratch fs = Some d → wf d → workspaces fs !! base_dir self = Some w →
  organize_files_and_identify_format (self, fs) = OK (self', fs') →
  archives fs' = archives fs
  ∧ (∀ k, k ≠ base_dir self → workspaces fs' !! k = workspaces fs !! k)
  ∧ (∃ w', workspaces fs' !! base_dir self = Some w'
           ∧ validation_images w' = validation_images w
           ∧ cocos w' = cocos w)
  ∧ zip_path self' = zip_path self ∧ base_dir self' = base_dir self
  ∧ train_images_dir self' = train_images_dir self
  ∧ cocos_dir self' = cocos_dir self ∧ extract_dir self' = extract_dir self
  ∧ ∃ d', scratch fs' = Some d' ∧ (walk d').*1 = (walk d).*1.
Proof.
  intros Hs Hwf Hw Ho.
  destruct (organize_OK _ _ _ _ _ _ Hs Hwf Hw Ho) as (ws' & Hwalk & ->).
  pose proof (walk_attributes _ _ _ Hwalk) as (H1 & H2 & H3 & H4).
  pose proof (walk_object _ _ _ Hwalk) as (Hb & _).
  eapply walk_workspace in Hwalk as (w' & Hw' & _ & Hv & Hc & Ho');
    [|apply lookup_insert_eq].
  cbn [fst snd archives workspaces scratch] in *.
  split_and!; try done.
  - intros k Hk. rewrite Ho' by done. by rewrite lookup_insert_ne.
  - by exists w'.
  - eexists. split; [done|]. apply walk_residual_dirs.
Qed.

Lemma X9_walk_frame_witness :
  archives Sample.organized.2 = archives Sample.extracted.2
  ∧ zip_path Sample.organized.1 = zip_path Sample.extracted.1.
Proof.
  destruct (X9_walk_frame (lib := Sample.library)
    Sample.extracted.1 Sample.organized.1 Sample.extracted.2 Sample.organized.2
    Sample.tree Sample.fresh_workspace
    sample_scratch sample_tree_wf sample_workspace sample_organize)
    as (Ha & _ & _ & Hz & _).
  split; [exact Ha|exact Hz].
Defined.

(** ** When the walk returns *)

Section completes.
Context {lib : Library}.





End completes.



(** ** A second walk *)

Lemma filter_idemp {A} (P : A → Prop) `{!∀ x, Decision (P x)} (l : list A) :
  filter P (filter P l) = filter P l.
Proof.
  induction l as [|x l IH]; [done|]. rewrite filter_cons.
  destruct (decide (P x)); [|done]. rewrite filter_cons_True by done.
  by rewrite IH.
Qed.

Lemma residual_idemp keep d : residual keep (residual keep d) = residual keep d.
Proof.
  induction d as [fs ds IH] using dir_ind'.
  rewrite !residual_Dir, filter_idemp. f_equal.
  rewrite <- list_fmap_compose. apply list_fmap_ext.
  intros i [n sub] Hi. cbn. f_equal.
  rewrite Forall_forall in IH. apply (IH (n, sub)).
  by apply list_elem_of_lookup_2 in Hi.
Qed.

Section again.
Context {lib : Library}.

Lemma deliver_annotations_present r file c W W' :
  deliver r file c W = OK W' →
  (∃ w, W.2 !! base_dir W.1 = Some w ∧ is_Some (annotations w)) →
  ∃ w', W'.2 !! base_dir W'.1 = Some w' ∧ is_Some (annotations w').
Proof.
  intros Hd (w & Hw & Ha). destruct r as [|folder format|]; simpl in Hd;
    rewrite ?Hw in Hd.
  - injection Hd as <-. simpl. rewrite lookup_insert_eq. eauto.
  - destruct (default ∅ (default ∅ (annotations w) !! folder) !! file); [done|].
    injection Hd as <-. simpl. rewrite lookup_insert_eq. eauto.
  - injection Hd as <-. eauto.
Qed.

Lemma walk_annotations_present l W W' :
  for_each l visit W = OK W' →
  (∃ w, W.2 !! base_dir W.1 = Some w ∧ is_Some (annotations w)) →
  ∃ w', W'.2 !! base_dir W'.1 = Some w' ∧ is_Some (annotations w').
Proof.
  revert W. induction l as [|e l IH]; intros W; cbn [for_each bind].
  { by intros [= <-]. }
  destruct (visit e W) as [W1|] eqn:Hv; cbn [bind]; [|done].
  intros Hl Hw. apply (IH W1 Hl).
  apply visit_delivers in Hv as [_ Hd].
  by apply (deliver_annotations_present _ _ _ _ _ Hd).
Qed.

(** The files that stay are visited for nothing. *)
Lemma walk_unclassified l W :
  Forall (λ e, sniff e.1.2 e.2 = OK Unclassified) l →
  for_each l visit W = OK W.
Proof.
  induction 1 as [|e l He _ IH]; [done|]. cbn [for_each].
  unfold visit at 1. rewrite He. cbn. exact IH.
Qed.

End again.

(** X11.  A second walk finds nothing to do: after a walk that
    returns, [organize_files_and_identify_format] returns again and
    leaves the object and the disk as they are (the files left in the
    scratch area are those that no branch moves). *)
Theorem X11_second_walk_changes_nothing {lib : Library}
    (self self' : AnnotationExplorer) (fs fs' : filesystem) (d : dir)
    (w : workspace) :
  scratch fs = Some d → wf d → workspaces fs !! base_dir self = Some w →
  organize_files_and_identify_format (self, fs) = OK (self', fs') →
  organize_files_and_identify_format (self', fs') = OK (self', fs').
Proof.
  intros Hs Hwf Hw Ho.
  destruct (organize_OK _ _ _ _ _ _ Hs Hwf Hw Ho) as (ws' & Hwalk & ->).
  pose proof (walk_object _ _ _ Hwalk) as (_ & _ & _ & _ & Hall).
  destruct (walk_annotations_present _ _ _ Hwalk) as (w' & Hw' & Ha').
  { exists (with_annotations w). split; [apply lookup_insert_eq|]. cbn. eauto. }
  cbn [fst snd] in Hw'.
  rewrite (organize_walk self' _ (residual stays d) w'); cbn [scratch workspaces archives];
    [|done|by apply residual_wf|done].
  assert (with_annotations w' = w') as ->.
  { destruct w' as [t v c a]. destruct Ha' as [ann Hann]. cbn in Hann. subst a. done. }
  rewrite (insert_id _ _ _ Hw'), residual_idemp, listing_residual.
  rewrite walk_unclassified; [done|].
  apply Forall_forall. intros e [Hstay He]%list_elem_of_filter.
  rewrite Forall_forall in Hall. destruct (Hall e He) as [r Hr].
  unfold stays in Hstay. rewrite Hr in *. by destruct r.
Qed.

Lemma X11_second_walk_changes_nothing_witness :
  organize_files_and_identify_format (lib := Sample.library)
    (Sample.organized.1, Sample.organized.2)
  = OK (Sample.organized.1, Sample.organized.2).
Proof.
  exact (X11_second_walk_changes_nothing (lib := Sample.library)
    Sample.extracted.1 Sample.organized.1 Sample.extracted.2 Sample.organized.2
    Sample.tree Sample.fresh_workspace
    sample_scratch sample_tree_wf sample_workspace sample_organize).
Defined.

(** ** The summary *)




(** ** Extraction *)

Section assoc_lookup.
Context {A : Type}.
Implicit Types (l : list (string * A)) (n m : string).



End assoc_lookup.












(** ** Nothing to walk over *)

Lemma residual_no_file keep d : listing d = [] → residual keep d = d.
Proof.
  induction d as [fs ds IH] using dir_ind'.
  rewrite listing_Dir, residual_Dir.
  intros [Hf Hd]%app_eq_nil. apply fmap_nil_inv in Hf. subst fs.
  f_equal. induction IH as [|[n sub] ds Hsub _ IHds]; [done|].
  cbn [fmap list_fmap mbind list_bind fst snd] in *.
  apply app_eq_nil in Hd as [Hd1 Hd2]. apply fmap_nil_inv in Hd1.
  by rewrite Hsub, IHds.
Qed.

(** X15.  With no scratch area, or with one that holds no file, the
    walk makes [annotations/] and returns: the counters and the
    format of the object are as before, the folders of the workspace
    hold what they held. *)
Theorem X15_walk_of_nothing {lib : Library} (self : AnnotationExplorer)
    (fs : filesystem) (w : workspace) :
  workspaces fs !! base_dir self = Some w →
  (scratch fs = None ∨ ∃ d, scratch fs = Some d ∧ wf d ∧ listing d = []) →
  organize_files_and_identify_format (self, fs)
  = OK (self, set_workspace (base_dir self) (with_annotations w) fs).
Proof.
  intros Hw [Hs|(d & Hs & Hwf & Hl)].
  - by apply organize_absent.
  - rewrite (organize_walk _ _ _ _ Hs Hwf Hw), Hl. cbn.
    unfold set_workspace. by rewrite Hs, residual_no_file.
Qed.

Lemma X15_walk_of_nothing_witness :
  organize_files_and_identify_format (lib := Sample.library)
    (__init__ Sample.zip_path Sample.disk)
  = OK ((__init__ Sample.zip_path Sample.disk).1,
        set_workspace (base_dir (__init__ Sample.zip_path Sample.disk).1)
          (with_annotations Sample.fresh_workspace)
          (__init__ Sample.zip_path Sample.disk).2).
Proof.
  refine (X15_walk_of_nothing (lib := Sample.library)
    (__init__ Sample.zip_path Sample.disk).1
    (__init__ Sample.zip_path Sample.disk).2 Sample.fresh_workspace _ _).
  - vm_compute. reflexivity.
  - left. vm_compute. reflexivity.
Defined.

(** ** A second run *)

Section taken.
Context {lib : Library}.

(** A file sent to a folder that has its name already ends the walk. *)
Lemma walk_taken earlier e later W folder c :
  goes_to folder (route_or_unclassified e) = true →
  annotation_folder W folder !! e.1.2 = Some c →
  ∀ W', for_each (earlier ++ e :: later) visit W ≠ OK W'.
Proof.
  intros Hgo Hc W'. rewrite for_each_app. cbn [for_each].
  destruct (for_each earlier visit W) as [W0|] eqn:Hb; cbn [bind]; [|done].
  destruct (visit e W0) as [W1|] eqn:Hv; cbn [bind]; [|done].
  apply (visit_folder _ _ _ folder) in Hv. rewrite Hgo in Hv.
  destruct Hv as [Hnew _].
  apply (walk_folder _ _ _ folder) in Hb as [_ Hkeep].
  apply Hkeep in Hc. congruence.
Qed.

Lemma omap_format_of_nonempty l :
  0 < length (omap format_of l) →
  ∃ earlier e later folder,
    l = earlier ++ e :: later ∧ goes_to folder (route_or_unclassified e) = true.
Proof.
  induction l as [|e l IH]; cbn [omap list_omap]; [simpl; lia|].
  unfold format_of at 1.
  destruct (route_or_unclassified e) as [|folder format|] eqn:Hr.
  - intros (earlier & e' & later & folder & -> & Hgo)%IH.
    by exists (e :: earlier), e', later, folder.
  - intros _. exists [], e, l, folder. split; [done|].
    rewrite Hr. cbn. by apply bool_decide_eq_true.
  - intros (earlier & e' & later & folder & -> & Hgo)%IH.
    by exists (e :: earlier), e', later, folder.
Qed.

End taken.

Lemma extract_zip_again self fs fs1 fs' :
  extract_zip self fs = OK fs1 →
  archives fs' = archives fs → scratch fs' = scratch fs →
  extract_zip self fs' = OK (set_scratch (scratch fs1) fs')
  ∧ archives fs1 = archives fs ∧ workspaces fs1 = workspaces fs.
Proof.
  unfold extract_zip. intros He -> ->.
  destruct (archives fs !! zip_path self) as [members|]; [|done].
  destruct (for_each members extract_member _) as [d|]; cbn [bind] in *; [|done].
  by injection He as <-.
Qed.

(** X16.  A run on an archive whose run has been made before, in a
    working directory with no scratch area, does not return when the
    first run accepted an annotation file: the constructor takes the
    workspace of the first run over, the walk reaches the same file,
    and [shutil.move] finds its name in the annotation folder. *)
Theorem X16_second_run_aborts {lib : Library} (zip_path : string)
    (fs : filesystem) (r : summary) (st : AnnotationExplorer * filesystem) :
  scratch fs = None →
  explore_and_organize (__init__ zip_path fs) = OK (r, st) →
  0 < num_annotations_files r →
  ∃ e, explore_and_organize (__init__ zip_path st.2) = Raise e.
Proof.
  intros Hnone Hrun Hpos.
  set (self := (__init__ zip_path fs).1).
  assert (Hinit : ∀ fs', ∃ w,
             __init__ zip_path fs' = (self, set_workspace (base_dir self) w fs')
             ∧ annotations w
               = annotations (default (Workspace ∅ ∅ ∅ None)
                                (workspaces fs' !! base_dir self))).
  { intros fs'. eexists. split; reflexivity. }
  assert (Hzero : num_annotations self = 0) by reflexivity.
  clearbody self.
  (* the first run *)
  destruct (Hinit fs) as (w0 & E0 & _). rewrite E0 in Hrun. clear E0.
  unfold explore_and_organize in Hrun.
  destruct (extract_zip self (set_workspace (base_dir self) w0 fs))
    as [fs1|] eqn:He; cbn [bind] in Hrun; [|done].
  destruct (organize_files_and_identify_format (self, fs1)) as [[self2 fs2]|] eqn:Ho;
    cbn [bind] in Hrun; [|done].
  assert (Hwf0 : wf_scratch (scratch (set_workspace (base_dir self) w0 fs))).
  { cbn. by rewrite Hnone. }
  destruct (extract_zip_wf _ _ _ Hwf0 He) as (d & Hs1 & Hwf1).
  assert (Hw1 : workspaces fs1 !! base_dir self = Some w0).
  { destruct (extract_zip_again _ _ _ fs He eq_refl eq_refl) as (_ & _ & ->).
    apply lookup_insert_eq. }
  destruct (organize_OK _ _ _ _ _ _ Hs1 Hwf1 Hw1 Ho) as (ws2 & Hwalk & ->).
  rewrite (cleanup_wf self2 _ (residual stays d)) in Hrun;
    [|done|by apply residual_wf].
  cbn [bind] in Hrun. injection Hrun as <- <-. cbn [fst snd] in *.
  pose proof (walk_object _ _ _ Hwalk) as (Hb2 & _ & Hn & _).
  cbn [fst snd num_annotations_files] in *.
  rewrite Hn, Hzero in Hpos.
  apply omap_format_of_nonempty in Hpos
    as (earlier & e & later & folder & Hl & Hgo).
  pose proof (walk_delivers _ _ _ Hwalk) as Hd.
  rewrite Forall_forall in Hd. specialize (Hd e).
  rewrite Hl in Hd. specialize (Hd ltac:(set_solver)).
  assert (Hthere : ∃ w2 ann dest,
             ws2 !! base_dir self = Some w2 ∧ annotations w2 = Some ann
             ∧ ann !! folder = Some dest ∧ dest !! e.1.2 = Some e.2).
  { unfold delivered in Hd.
    destruct (route_or_unclassified e) as [|f format|]; try discriminate Hgo.
    cbn in Hgo. apply bool_decide_eq_true in Hgo. subst f.
    unfold annotation_file in Hd. cbn [fst snd] in Hd. rewrite Hb2 in Hd.
    destruct (ws2 !! base_dir self) as [w2|] eqn:Hw2; [|done]. cbn in Hd.
    destruct (annotations w2) as [ann|] eqn:Hann; [|done]. cbn in Hd.
    destruct (ann !! folder) as [dest|] eqn:Hf; [|done]. cbn in Hd.
    by exists w2, ann, dest. }
  destruct Hthere as (w2 & ann & dest & Hw2 & Hann & Hdest & Hname).
  (* the second run *)
  set (fs3 := set_scratch None _).
  destruct (Hinit fs3) as (w3 & -> & Hann3).
  assert (Hann3' : annotations w3 = Some ann).
  { rewrite Hann3. subst fs3. cbn. by rewrite Hw2. }
  clear Hann3.
  unfold explore_and_organize.
  destruct (extract_zip_again _ _ _ (set_workspace (base_dir self) w3 fs3) He)
    as (-> & Ha1 & _).
  { subst fs3. cbn. destruct (extract_zip_again _ _ _ fs He eq_refl eq_refl)
      as (_ & -> & _). done. }
  { subst fs3. cbn. by rewrite Hnone. }
  cbn [bind]. rewrite Hs1.
  match goal with
  | |- context [organize_files_and_identify_format ?s] =>
      destruct (organize_files_and_identify_format s) as [st'|e'] eqn:Ho2
  end; cbn [bind]; [|eauto].
  exfalso.
  rewrite (organize_walk _ _ d w3) in Ho2; [|done|done|apply lookup_insert_eq].
  rewrite Hl in Ho2.
  match type of Ho2 with
  | bind (for_each _ visit ?W) _ = _ =>
      destruct (for_each (earlier ++ e :: later) visit W) as [W'|] eqn:Hw
  end; cbn [bind] in Ho2; [|done].
  revert Hw. apply (walk_taken _ _ _ _ folder e.2); [done|].
  unfold annotation_folder. cbn [fst snd].
  rewrite lookup_insert_eq. cbn. rewrite Hann3'. cbn. by rewrite Hdest.
Qed.

Lemma X16_second_run_aborts_witness :
  scratch Sample.disk = None
  ∧ 0 < num_annotations_files Sample.explored.1
  ∧ ∃ e, explore_and_organize (lib := Sample.library)
           (__init__ Sample.zip_path Sample.explored.2.2) = Raise e.
Proof.
  split; [reflexivity|]. split; [vm_compute; lia|].
  apply (X16_second_run_aborts (lib := Sample.library) Sample.zip_path
           Sample.disk Sample.explored.1 Sample.explored.2).
  - reflexivity.
  - exact sample_explore.
  - vm_compute. lia.
Defined.

(** ** From the archive to the workspace *)









